(** * aiida-workgraph-web-ui: the REST backend, embedded and verified

    The endpoints of [backend/app/workgraph.py] and
    [backend/app/datanode.py] and the exception handler of
    [backend/app/api.py] are translated to functions over a model of the
    Python values they handle (JSON-like values, dicts with their
    [KeyError], exceptions and [try]/[except]).  What they call and is not
    theirs (the AiiDA ORM and QueryBuilder, process control, the graph
    serialisation of aiida-workgraph, FastAPI's default handlers, a few
    library functions of Python) is a field of a class or a variable of a
    section, so every theorem holds whatever these do. *)

From Stdlib Require Import ZArith List String Ascii Bool Lia QArith.
From Stdlib Require Import Permutation.
From Stdlib Require Import DecimalString DecimalPos.
Import ListNotations.
Local Open Scope string_scope.
Local Open Scope Z_scope.

Set Implicit Arguments.
Set Warnings "-register-all".

(** ** Python values *)

(** A Python float: [json.loads] accepts [NaN] and [Infinity]; a finite
    double is a rational number. *)
Inductive pyfloat : Type :=
| FNan
| FInf (negative : bool)
| FFinite (q : Q).

(** The values the handlers move around: what [json.loads] produces and
    what a handler returns to FastAPI for serialisation. *)
Inductive json : Type :=
| JNull
| JBool (b : bool)
| JInt (z : Z)
| JFloat (f : pyfloat)
| JStr (s : string)
| JList (l : list json)
| JDict (d : list (string * json)).

(** ** Exceptions *)

(** Every exception below is a subclass of Python's [Exception]:
    [HTTPException] is FastAPI's (a subclass of Starlette's), [KeyError] is
    the one a dict subscript raises, with its text (the [repr] of the
    missing key), [RequestValidationError] is what
    FastAPI raises for a parameter that fails its declared constraint,
    [PyError cls msg] is any other exception, of class [cls], whose [str]
    is [msg]. *)
Inductive exn : Type :=
| HTTPException (status_code : Z) (detail : string)
| KeyError (shown : string)
| RequestValidationError (params : list string)
| PyError (cls : string) (msg : string).

Inductive result (A : Type) : Type :=
| Ok (a : A)
| Raise (e : exn).
Arguments Ok {A} a.
Arguments Raise {A} e.

Definition bind {A B : Type} (m : result A) (k : A -> result B) : result B :=
  match m with
  | Ok a => k a
  | Raise e => Raise e
  end.

Declare Scope py_scope.
Delimit Scope py_scope with py.
Notation "x <- m ;; k" := (bind m (fun x => k))
  (at level 100, m at next level, right associativity) : py_scope.
Notation "' pat <- m ;; k" := (bind m (fun x => match x with pat => k end))
  (at level 100, pat pattern, m at next level, right associativity) : py_scope.
Local Open Scope py_scope.

(** [f"{n}"] for an [int]. *)
Definition string_of_Z (n : Z) : string :=
  NilZero.string_of_int (Z.to_int n).

(** ** Dicts *)

Fixpoint dict_get (d : list (string * json)) (k : string) : option json :=
  match d with
  | [] => None
  | (k', v) :: rest => if String.eqb k' k then Some v else dict_get rest k
  end.

(** [d[k] = v]: an existing key keeps its place, a new one goes last. *)
Fixpoint dict_set (d : list (string * json)) (k : string) (v : json)
    : list (string * json) :=
  match d with
  | [] => [(k, v)]
  | (k', v') :: rest =>
      if String.eqb k' k then (k', v) :: rest else (k', v') :: dict_set rest k v
  end.

Definition dict_keys (d : list (string * json)) : list string := map fst d.

(** [not v] is [negb (truthy v)]. *)
Definition truthy (v : json) : bool :=
  match v with
  | JNull => false
  | JBool b => b
  | JInt z => negb (z =? 0)
  | JFloat (FFinite q) => negb (Qeq_bool q 0)
  | JFloat _ => true
  | JStr s => negb (String.eqb s "")
  | JList l => match l with [] => false | _ => true end
  | JDict d => match d with [] => false | _ => true end
  end.

(** [s.endswith(suffix)] *)
Fixpoint endswith (s suffix : string) : bool :=
  String.eqb s suffix
  || match s with
     | EmptyString => false
     | String _ rest => endswith rest suffix
     end.

(** The last character of a string, and the decimal digits. *)
Definition last_char (s : string) : option ascii :=
  last (map Some (list_ascii_of_string s)) None.

Definition digit_char (c : ascii) : Prop :=
  In c ["0"; "1"; "2"; "3"; "4"; "5"; "6"; "7"; "8"; "9"]%char.

(** ** The Python runtime *)

(** What the handlers use of Python and its libraries and is not spelled
    out here: [repr] of a missing key (the text of a [KeyError]), [str] of
    a float, list or dict inside an f-string, [int] of a string ([None] for
    [ValueError]), [str.isdigit], [json.loads] ([None] for
    [JSONDecodeError]), and [str] of an [HTTPException] with the given
    status code and detail.  A [string] is a sequence of characters. *)
Class Python : Type := {
  py_repr : json -> string;
  py_str_compound : json -> string;
  int_of_str : string -> option Z;
  str_isdigit : string -> bool;
  json_loads : string -> option json;
  http_exception_str : Z -> string -> string
}.

Definition TypeError (msg : string) : exn := PyError "TypeError" msg.
Definition AttributeError (msg : string) : exn := PyError "AttributeError" msg.
Definition IndexError (msg : string) : exn := PyError "IndexError" msg.
Definition ValueError (msg : string) : exn := PyError "ValueError" msg.
Definition OverflowError (msg : string) : exn := PyError "OverflowError" msg.
Definition UnboundLocalError (msg : string) : exn :=
  PyError "UnboundLocalError" msg.

(** The numbers among the values: [bool] is a subclass of [int], and an
    [int] compares with a [float] by value. *)
Definition as_number (v : json) : option pyfloat :=
  match v with
  | JBool b => Some (FFinite (inject_Z (if b then 1 else 0)))
  | JInt z => Some (FFinite (inject_Z z))
  | JFloat f => Some f
  | _ => None
  end.

Definition pyfloat_eq (f g : pyfloat) : bool :=
  match f, g with
  | FFinite p, FFinite q => Qeq_bool p q
  | FInf m, FInf n => Bool.eqb m n
  | _, _ => false
  end.

(** [a == b]: lists compare element by element, dicts compare as maps
    (whatever the order of their keys). *)
Fixpoint py_eq (a b : json) {struct a} : bool :=
  match a, b with
  | JNull, JNull => true
  | JStr s, JStr t => String.eqb s t
  | JList l, JList m =>
      (fix all2 (l : list json) (m : list json) {struct l} : bool :=
         match l, m with
         | [], [] => true
         | x :: l', y :: m' => py_eq x y && all2 l' m'
         | _, _ => false
         end) l m
  | JDict d, JDict e =>
      (List.length d =? List.length e)%nat &&
      (fix all (d : list (string * json)) : bool :=
         match d with
         | [] => true
         | (k, v) :: d' =>
             match dict_get e k with
             | Some v' => py_eq v v'
             | None => false
             end && all d'
         end) d
  | _, _ =>
      match as_number a, as_number b with
      | Some f, Some g => pyfloat_eq f g
      | _, _ => false
      end
  end.

Definition is_substring (needle hay : string) : bool :=
  match index 0 needle hay with
  | Some _ => true
  | None => false
  end.

Definition chars (s : string) : list json :=
  map (fun c => JStr (String c "")) (list_ascii_of_string s).

Section Runtime.
Context {py : Python}.

(** [str(e)] *)
Definition str_exn (e : exn) : string :=
  match e with
  | HTTPException code detail => http_exception_str code detail
  | KeyError shown => shown
  | RequestValidationError params => String.concat ", " params
  | PyError _ msg => msg
  end.

(** [f"{v}"] *)
Definition py_str (v : json) : string :=
  match v with
  | JStr s => s
  | JInt z => string_of_Z z
  | JBool true => "True"
  | JBool false => "False"
  | JNull => "None"
  | _ => py_str_compound v
  end.

(** [x in container] *)
Definition py_in (x container : json) : result bool :=
  match container with
  | JList l => Ok (existsb (py_eq x) l)
  | JDict d =>
      match x with
      | JStr s => Ok (existsb (String.eqb s) (dict_keys d))
      | JList _ | JDict _ => Raise (TypeError "unhashable type")
      | _ => Ok false
      end
  | JStr s =>
      match x with
      | JStr t => Ok (is_substring t s)
      | _ => Raise (TypeError "'in <string>' requires string as left operand")
      end
  | _ => Raise (TypeError "argument is not iterable")
  end.

(** [for x in v] *)
Definition py_iter (v : json) : result (list json) :=
  match v with
  | JList l => Ok l
  | JDict d => Ok (map JStr (dict_keys d))
  | JStr s => Ok (chars s)
  | _ => Raise (TypeError "object is not iterable")
  end.

(** A position in a sequence of length [n]: negative ones count from the
    end. *)
Definition seq_index (i : Z) (n : nat) : option nat :=
  let i' := if i <? 0 then i + Z.of_nat n else i in
  if (0 <=? i') && (i' <? Z.of_nat n) then Some (Z.to_nat i') else None.

Definition as_index (k : json) : option Z :=
  match k with
  | JInt i => Some i
  | JBool b => Some (if b then 1 else 0)
  | _ => None
  end.

(** [v[k]] *)
Definition subscript (v k : json) : result json :=
  match v with
  | JDict d =>
      match k with
      | JStr s =>
          match dict_get d s with
          | Some x => Ok x
          | None => Raise (KeyError (py_repr k))
          end
      | JList _ | JDict _ => Raise (TypeError "unhashable type")
      | _ => Raise (KeyError (py_repr k))
      end
  | JList l =>
      match as_index k with
      | Some i =>
          match seq_index i (List.length l) with
          | Some n =>
              match nth_error l n with
              | Some x => Ok x
              | None => Raise (IndexError "list index out of range")
              end
          | None => Raise (IndexError "list index out of range")
          end
      | None => Raise (TypeError "list indices must be integers or slices")
      end
  | JStr s =>
      match as_index k with
      | Some i =>
          match seq_index i (String.length s) with
          | Some n =>
              match String.get n s with
              | Some c => Ok (JStr (String c ""))
              | None => Raise (IndexError "string index out of range")
              end
          | None => Raise (IndexError "string index out of range")
          end
      | None => Raise (TypeError "string indices must be integers")
      end
  | _ => Raise (TypeError "object is not subscriptable")
  end.

(** [v.get(k, default)] *)
Definition py_get (v : json) (k : string) (default : json) : result json :=
  match v with
  | JDict d =>
      match dict_get d k with
      | Some x => Ok x
      | None => Ok default
      end
  | _ => Raise (AttributeError "object has no attribute 'get'")
  end.

(** [v[k] = x] *)
Definition setitem (v : json) (k : string) (x : json) : result json :=
  match v with
  | JDict d => Ok (JDict (dict_set d k x))
  | JList _ => Raise (TypeError "list indices must be integers or slices")
  | _ => Raise (TypeError "object does not support item assignment")
  end.

(** [int(v)] *)
Definition py_int (v : json) : result Z :=
  match v with
  | JBool b => Ok (if b then 1 else 0)
  | JInt z => Ok z
  | JFloat FNan => Raise (ValueError "cannot convert float NaN to integer")
  | JFloat (FInf _) =>
      Raise (OverflowError "cannot convert float infinity to integer")
  | JFloat (FFinite q) => Ok (Z.quot (Qnum q) (Zpos (Qden q)))
  | JStr s =>
      match int_of_str s with
      | Some z => Ok z
      | None => Raise (ValueError "invalid literal for int() with base 10")
      end
  | _ => Raise (TypeError "int() argument must be a string or a number")
  end.

End Runtime.

(** Letter case, on the letters a to z and A to Z: no other character
    has an upper case among the letters of "WORKGRAPH" and "MAP". *)
Definition is_lower (c : ascii) : bool :=
  let n := nat_of_ascii c in ((97 <=? n) && (n <=? 122))%nat.

Definition is_upper (c : ascii) : bool :=
  let n := nat_of_ascii c in ((65 <=? n) && (n <=? 90))%nat.

Definition upper_char (c : ascii) : ascii :=
  if is_lower c then ascii_of_nat (nat_of_ascii c - 32) else c.

Definition lower_char (c : ascii) : ascii :=
  if is_upper c then ascii_of_nat (nat_of_ascii c + 32) else c.

(** [s.upper()] *)
Fixpoint upper (s : string) : string :=
  match s with
  | EmptyString => EmptyString
  | String c rest => String (upper_char c) (upper rest)
  end.

(** [s.title()]: a cased character is upper-cased after an uncased one and
    lower-cased after a cased one. *)
Fixpoint title_from (previous_is_cased : bool) (s : string) : string :=
  match s with
  | EmptyString => EmptyString
  | String c rest =>
      if is_lower c then
        String (if previous_is_cased then c else upper_char c)
               (title_from true rest)
      else if is_upper c then
        String (if previous_is_cased then lower_char c else c)
               (title_from true rest)
      else String c (title_from false rest)
  end.

Definition title (s : string) : string := title_from false s.

(** [v.upper()] and [v.title()] on a value that may not be a [str] *)
Definition py_upper (v : json) : result string :=
  match v with
  | JStr s => Ok (upper s)
  | _ => Raise (AttributeError "object has no attribute 'upper'")
  end.

Definition py_title (v : json) : result json :=
  match v with
  | JStr s => Ok (JStr (title s))
  | _ => Raise (AttributeError "object has no attribute 'title'")
  end.

(** [s.split(sep)] for a one-character separator: never empty. *)
Fixpoint split (sep : ascii) (s : string) : list string :=
  match s with
  | EmptyString => [EmptyString]
  | String c rest =>
      if Ascii.eqb c sep then EmptyString :: split sep rest
      else
        match split sep rest with
        | first :: others => String c first :: others
        | [] => [String c EmptyString]
        end
  end.

(** [for x in xs: acc = body acc x], stopping at the first exception *)
Fixpoint for_each {A B : Type} (xs : list A) (body : B -> A -> result B)
    (acc : B) : result B :=
  match xs with
  | [] => Ok acc
  | x :: rest => acc' <- body acc x ;; for_each rest body acc'
  end.

(** [[f x for x in xs]] *)
Fixpoint comprehension {A B : Type} (f : A -> result B) (xs : list A)
    : result (list B) :=
  match xs with
  | [] => Ok []
  | x :: rest => y <- f x ;; ys <- comprehension f rest ;; Ok (y :: ys)
  end.

(** ** The engine: state and exceptions *)

(** A call into AiiDA may change the database or the daemon and may raise;
    a raised exception keeps the changes made so far. *)
Definition M (world A : Type) : Type := world -> result A * world.

Definition ret {world A : Type} (a : A) : M world A := fun w => (Ok a, w).

Definition raise {world A : Type} (e : exn) : M world A :=
  fun w => (Raise e, w).

Definition mbind {world A B : Type} (m : M world A) (k : A -> M world B)
    : M world B :=
  fun w =>
    match m w with
    | (Ok a, w') => k a w'
    | (Raise e, w') => (Raise e, w')
    end.

Definition lift {world A : Type} (r : result A) : M world A :=
  fun w => (r, w).

(** [try: body except Exception as e: handler e] *)
Definition try_except_Exception {world A : Type} (body : M world A)
    (handler : exn -> M world A) : M world A :=
  fun w =>
    match body w with
    | (Ok a, w') => (Ok a, w')
    | (Raise e, w') => handler e w'
    end.

(** [try: body except KeyError as e: handler e] *)
Definition try_except_KeyError {world A : Type} (body : M world A)
    (handler : string -> M world A) : M world A :=
  fun w =>
    match body w with
    | (Raise (KeyError shown), w') => handler shown w'
    | other => other
    end.

Declare Scope eng_scope.
Delimit Scope eng_scope with eng.
Notation "x <- m ;; k" := (mbind m (fun x => k))
  (at level 100, m at next level, right associativity) : eng_scope.
Notation "' pat <- m ;; k" := (mbind m (fun x => match x with pat => k end))
  (at level 100, pat pattern, m at next level, right associativity) : eng_scope.

(** A stored workgraph process node, as [orm.load_node] returns it, with the
    properties the handlers read. *)
Record WorkGraphNode : Type := mkNode {
  process_label : json;
  workgraph_data : json;
  workgraph_data_short : json;
  task_executors : json;
  task_map_info : json
}.

(** Everything the handlers of [workgraph.py] and the delete handler of
    [datanode.py] call outside this repository's [src/]:
    [aiida.orm.load_node], [aiida.engine.processes.control],
    [aiida.tools.delete_nodes] (the pks and whether they were deleted),
    [aiida_workgraph.utils.control] (each returns a pair whose second
    component is the message), [aiida.orm.utils.serialize],
    [aiida_workgraph.utils], and the summary helpers of [.utils]. *)
Class Engine (world : Type) : Type := {
  load_node : Z -> M world WorkGraphNode;
  pause_processes : list WorkGraphNode -> M world unit;
  play_processes : list WorkGraphNode -> M world unit;
  delete_nodes : list Z -> bool -> M world (list Z * bool);
  pause_tasks : Z -> option (list string) -> M world (json * json);
  play_tasks : Z -> option (list string) -> M world (json * json);
  kill_tasks : Z -> option (list string) -> M world (json * json);
  deserialize_unsafe : json -> result json;
  workgraph_to_short_json : json -> result json;
  shallow_copy_nested_dict : json -> json;
  get_parent_workgraphs : Z -> M world (list json);
  get_node_summary : WorkGraphNode -> M world json;
  get_node_inputs : Z -> M world json;
  get_node_outputs : Z -> M world json
}.

(** ** workgraph.py and datanode.py: the control endpoints *)

Section Control.
Local Open Scope eng_scope.
Context {py : Python} {world : Type} {eng : Engine world}.

Definition pause_workgraph (id : Z) : M world json :=
  try_except_Exception
    (node <- load_node id ;;
     _ <- pause_processes [node] ;;
     ret (JDict [("message",
                  JStr ("Send message to pause workgraph " ++ string_of_Z id))]))
    (fun e => raise (HTTPException 500 (str_exn e))).

Definition play_workgraph (id : Z) : M world json :=
  try_except_Exception
    (node <- load_node id ;;
     _ <- play_processes [node] ;;
     ret (JDict [("message",
                  JStr ("Send message to play workgraph " ++ string_of_Z id))]))
    (fun e => raise (HTTPException 500 (str_exn e))).

Definition delete_workgraph (id : Z) (dry_run : bool) : M world json :=
  try_except_Exception
    ('(deleted_nodes, was_deleted) <- delete_nodes [id] dry_run ;;
     if was_deleted then
       ret (JDict [("deleted", JBool true);
                   ("message", JStr ("Deleted workgraph " ++ string_of_Z id));
                   ("deleted_nodes", JList (map JInt deleted_nodes))])
     else
       let message := "Did not delete workgraph " ++ string_of_Z id in
       let message := if dry_run then message ++ " [dry-run]" else message in
       ret (JDict [("deleted", JBool false);
                   ("message", JStr message);
                   ("deleted_nodes", JList (map JInt deleted_nodes))]))
    (fun e => raise (HTTPException 500 (str_exn e))).

Definition delete_data_node (id : Z) (dry_run : bool) : M world json :=
  try_except_Exception
    ('(deleted_nodes, was_deleted) <- delete_nodes [id] dry_run ;;
     if was_deleted then
       ret (JDict [("deleted", JBool true);
                   ("message", JStr ("Deleted data node " ++ string_of_Z id));
                   ("deleted_nodes", JList (map JInt deleted_nodes))])
     else
       let message := "Did not delete data node " ++ string_of_Z id in
       let message := if dry_run then message ++ " [dry-run]" else message in
       ret (JDict [("deleted", JBool false);
                   ("message", JStr message);
                   ("deleted_nodes", JList (map JInt deleted_nodes))]))
    (fun e => raise (HTTPException 500 (str_exn e))).

Definition manage_task_action (action : string) (id : Z)
    (tasks : option (list string)) : M world json :=
  try_except_Exception
    (msg <-
       (if String.eqb action "pause" then
          '(_, msg) <- pause_tasks id tasks ;; ret msg
        else if String.eqb action "play" then
          '(_, msg) <- play_tasks id tasks ;; ret msg
        else if String.eqb action "kill" then
          '(_, msg) <- kill_tasks id tasks ;; ret msg
        else raise (HTTPException 400 "Unsupported action")) ;;
     ret (JDict [("message", msg)]))
    (fun e => raise (HTTPException 500 (str_exn e))).




End Control.

(** ** workgraph.py: reading a workgraph and its sub-graphs *)

Section Reading.
Context {py : Python} {world : Type} {eng : Engine world}.

(** [ndata["metadata"]["node_type"].upper()] *)
Definition node_type_upper (ndata : json) : result string :=
  metadata <- subscript ndata (JStr "metadata") ;;
  node_type <- subscript metadata (JStr "node_type") ;;
  py_upper node_type.

(** One turn of the loop over [segments[1:]] *)
Definition descend (graph_data : json) (segment : string) : result json :=
  tasks <- subscript graph_data (JStr "tasks") ;;
  task <- subscript tasks (JStr segment) ;;
  executor <- subscript task (JStr "executor") ;;
  subscript executor (JStr "graph_data").

(** The branch for a task of node type WORKGRAPH *)
Definition workgraph_branch (node : WorkGraphNode) (segments : list string)
    : result json :=
  executor <- py_get (task_executors node) (hd "" segments) JNull ;;
  graph_data <- subscript executor (JStr "graph_data") ;;
  for_each (tl segments) descend graph_data.

(** [f"{prefix}_{child}"] *)
Definition map_task_name (prefix child : json) : string :=
  py_str prefix ++ "_" ++ py_str child.

(** [deserialize_unsafe(node.workgraph_data["tasks"][child])] *)
Definition child_data (node : WorkGraphNode) (child : json) : result json :=
  all_tasks <- subscript (workgraph_data node) (JStr "tasks") ;;
  raw <- subscript all_tasks child ;;
  deserialize_unsafe raw.

(** The body of [for child in map_info["children"]]: the accumulator is
    [graph_data["tasks"]]. *)
Definition copy_child (node : WorkGraphNode) (map_info : json)
    (tasks : list (string * json)) (child : json)
    : result (list (string * json)) :=
  child_data <- child_data node child ;;
  prefixes <- subscript map_info (JStr "prefix") ;;
  prefixes <- py_iter prefixes ;;
  for_each prefixes
    (fun tasks prefix =>
       let new_data := shallow_copy_nested_dict child_data in
       new_data <- setitem new_data "name"
                     (JStr (map_task_name prefix child)) ;;
       Ok (dict_set tasks (map_task_name prefix child) new_data))
    tasks.

(** The body of [for prefix in map_info["prefix"]] in the loop over the
    links: the accumulator is [graph_data["links"]]. *)
Definition append_link (link : json) (links : list json) (prefix : json)
    : result (list json) :=
  link_from <- subscript link (JStr "from_node") ;;
  let from_node := map_task_name prefix link_from in
  link_to <- subscript link (JStr "to_node") ;;
  let to_node := map_task_name prefix link_to in
  from_socket <- subscript link (JStr "from_socket") ;;
  to_socket <- subscript link (JStr "to_socket") ;;
  Ok (links ++ [JDict [("from_node", JStr from_node);
                       ("to_node", JStr to_node);
                       ("from_socket", from_socket);
                       ("to_socket", to_socket)]])%list.

(** The body of [for link in map_info["links"]] *)
Definition copy_link (map_info : json) (links : list json) (link : json)
    : result (list json) :=
  from_node <- subscript link (JStr "from_node") ;;
  children <- subscript map_info (JStr "children") ;;
  from_inside <- py_in from_node children ;;
  both_inside <-
    (if from_inside then
       to_node <- subscript link (JStr "to_node") ;;
       children <- subscript map_info (JStr "children") ;;
       py_in to_node children
     else Ok false) ;;
  if both_inside then
    prefixes <- subscript map_info (JStr "prefix") ;;
    prefixes <- py_iter prefixes ;;
    for_each prefixes (append_link link) links
  else Ok links.

(** The branch for a task of node type MAP *)
Definition map_branch (node : WorkGraphNode) (segments : list string)
    : result json :=
  map_info <- py_get (task_map_info node) (hd "" segments) JNull ;;
  children <- subscript map_info (JStr "children") ;;
  children <- py_iter children ;;
  tasks <- for_each children (copy_child node map_info) [] ;;
  links <- subscript map_info (JStr "links") ;;
  links <- py_iter links ;;
  links <- for_each links (copy_link map_info) [] ;;
  Ok (JDict [("name", JStr (last segments ""));
             ("uuid", JStr "");
             ("tasks", JDict tasks);
             ("links", JList links)]).

(** From [content = workgraph_to_short_json(graph_data)] to [return content] *)
Definition sub_workgraph_content (node : WorkGraphNode) (id : Z)
    (segments : list string) (graph_data : json) : result json :=
  content <- workgraph_to_short_json graph_data ;;
  match content with
  | JNull => Ok JNull
  | _ =>
      let summary := JDict [("table", JList []);
                            ("inputs", JDict []);
                            ("outputs", JDict [])] in
      let parent_workgraphs :=
        JList (JList [process_label node; JInt id] :: map JStr segments) in
      content <- setitem content "summary" summary ;;
      content <- setitem content "parent_workgraphs" parent_workgraphs ;;
      setitem content "processes_info" (JDict [])
  end.

(** The [try] block of [read_sub_workgraph] after [load_node] *)
Definition sub_workgraph_body (node : WorkGraphNode) (id : Z) (path : string)
    : result json :=
  let segments := split "/" path in
  tasks <- subscript (workgraph_data node) (JStr "tasks") ;;
  ndata <- subscript tasks (JStr (hd "" segments)) ;;
  ndata <- deserialize_unsafe ndata ;;
  node_type <- node_type_upper ndata ;;
  graph_data <-
    (if String.eqb node_type "WORKGRAPH" then workgraph_branch node segments
     else
       node_type <- node_type_upper ndata ;;
       if String.eqb node_type "MAP" then map_branch node segments
       else Raise (UnboundLocalError
                     "cannot access local variable 'graph_data'")) ;;
  sub_workgraph_content node id segments graph_data.

(** The [try] block of [read_sub_workgraph] *)
Definition read_sub_workgraph_try (id : Z) (path : string) : M world json :=
  mbind (load_node id) (fun node => lift (sub_workgraph_body node id path)).

Definition read_sub_workgraph (id : Z) (path : string) : M world json :=
  try_except_KeyError (read_sub_workgraph_try id path)
    (fun shown =>
       raise (HTTPException 404
                ("Workgraph " ++ string_of_Z id ++ "/" ++ path
                 ++ " not found, " ++ shown))).

(** The [try] block of [read_workgraph] *)
Definition read_workgraph_try (id : Z) : M world json :=
  mbind (load_node id) (fun node =>
  let content := workgraph_data_short node in
  match content with
  | JNull => ret JNull
  | _ =>
      mbind (get_node_summary node) (fun table =>
      mbind (get_node_inputs id) (fun inputs =>
      mbind (get_node_outputs id) (fun outputs =>
      let summary := JDict [("table", table);
                            ("inputs", inputs);
                            ("outputs", outputs)] in
      mbind (get_parent_workgraphs id) (fun parent_workgraphs =>
      let parent_workgraphs := rev parent_workgraphs in
      lift (content <- setitem content "summary" summary ;;
            content <- setitem content "parent_workgraphs"
                         (JList parent_workgraphs) ;;
            setitem content "processes_info" (JDict []))))))
  end).

Definition read_workgraph (id : Z) : M world json :=
  try_except_KeyError (read_workgraph_try id)
    (fun shown =>
       raise (HTTPException 404
                ("Workgraph " ++ string_of_Z id ++ " not found, " ++ shown))).

(** [graph_data] is reached from [start] by one
    [graph_data["tasks"][segment]["executor"]["graph_data"]] per segment. *)
Inductive reaches : json -> list string -> json -> Prop :=
| reaches_here (g : json) : reaches g [] g
| reaches_down (g tasks task executor g' g'' : json) (segment : string)
    (rest : list string) :
    subscript g (JStr "tasks") = Ok tasks ->
    subscript tasks (JStr segment) = Ok task ->
    subscript task (JStr "executor") = Ok executor ->
    subscript executor (JStr "graph_data") = Ok g' ->
    reaches g' rest g'' ->
    reaches g (segment :: rest) g''.

(** The first segment names a task of the workgraph whose node type, in
    upper case, is [node_type]. *)
Definition names_task (node : WorkGraphNode) (segment node_type : string)
    : Prop :=
  exists tasks raw ndata,
    subscript (workgraph_data node) (JStr "tasks") = Ok tasks
    /\ subscript tasks (JStr segment) = Ok raw
    /\ deserialize_unsafe raw = Ok ndata
    /\ node_type_upper ndata = Ok node_type.

(** [KeyError] becomes HTTP 404, as in the [except] clause of
    [read_sub_workgraph]. *)
Definition not_found (id : Z) (path : string) (r : result json)
    : result json :=
  match r with
  | Raise (KeyError shown) =>
      Raise (HTTPException 404
               ("Workgraph " ++ string_of_Z id ++ "/" ++ path
                ++ " not found, " ++ shown))
  | other => other
  end.






End Reading.

(** ** The list endpoints: QueryBuilder, validation, filters *)

Inductive orm_class : Type :=
| Data
| WorkGraphNodeClass.

(** The database as the ORM shows it: the stored entities of a class, the
    value of a column (or JSON attribute path) of an entity, which
    entities a filter dict selects and how the backend orders by a column
    in a direction; ordering only rearranges the rows. *)
Class Storage : Type := {
  entity : Type;
  stored : orm_class -> list entity;
  column : entity -> string -> json;
  qb_matches : json -> entity -> bool;
  qb_sort : string -> string -> list entity -> list entity;
  qb_sort_permutation :
    forall (col direction : string) (rows : list entity),
      Permutation (qb_sort col direction rows) rows
}.

(** [.utils] of the backend: [time_ago] and the filter translation shared
    with the workgraph list. *)
Class Utils : Type := {
  time_ago : json -> json;
  translate_datagrid_filter_json : string -> result json
}.

(** The state of a [QueryBuilder] with one appended vertex. *)
Record QueryBuilder : Type := mkQB {
  qb_cls : orm_class;
  qb_filters : json;
  qb_project : list string;
  qb_tag : string;
  qb_order : option (string * string);
  qb_offset : option Z;
  qb_limit : option Z
}.

(** [QueryBuilder().append(cls, filters=..., project=..., tag=...)] *)
Definition qb_append (cls : orm_class) (filters : json)
    (project : list string) (tag : string) : QueryBuilder :=
  mkQB cls filters project tag None None None.

(** [qb.order_by({tag: {col: direction}})]; [tag] names the only vertex. *)
Definition qb_order_by (qb : QueryBuilder) (tag col direction : string)
    : QueryBuilder :=
  mkQB (qb_cls qb) (qb_filters qb) (qb_project qb) (qb_tag qb)
       (Some (col, direction)) (qb_offset qb) (qb_limit qb).

Definition qb_set_offset (qb : QueryBuilder) (n : Z) : QueryBuilder :=
  mkQB (qb_cls qb) (qb_filters qb) (qb_project qb) (qb_tag qb)
       (qb_order qb) (Some n) (qb_limit qb).

Definition qb_set_limit (qb : QueryBuilder) (n : Z) : QueryBuilder :=
  mkQB (qb_cls qb) (qb_filters qb) (qb_project qb) (qb_tag qb)
       (qb_order qb) (qb_offset qb) (Some n).

Section Query.
Context {db : Storage}.

Definition qb_matching (qb : QueryBuilder) : list entity :=
  filter (qb_matches (qb_filters qb)) (stored (qb_cls qb)).

Definition qb_ordered (qb : QueryBuilder) : list entity :=
  match qb_order qb with
  | Some (col, direction) => qb_sort col direction (qb_matching qb)
  | None => qb_matching qb
  end.

(** The rows the query selects: filter, order, then OFFSET and LIMIT when
    they are set. *)
Definition qb_selected (qb : QueryBuilder) : list entity :=
  let rows := qb_ordered qb in
  let rows :=
    match qb_offset qb with
    | Some n => skipn (Z.to_nat n) rows
    | None => rows
    end in
  match qb_limit qb with
  | Some n => firstn (Z.to_nat n) rows
  | None => rows
  end.

(** [qb.count()] counts the rows of the query as it stands, OFFSET and
    LIMIT included. *)
Definition qb_count (qb : QueryBuilder) : Z :=
  Z.of_nat (List.length (qb_selected qb)).

(** [qb.all()]: one list of projected values per row. *)
Definition qb_all (qb : QueryBuilder) : list (list json) :=
  map (fun e => map (column e) (qb_project qb)) (qb_selected qb).

End Query.

(** The query parameters as FastAPI receives them ([None]: omitted) and as
    the handler gets them. *)
Record ListQuery : Type := mkQuery {
  q_skip : option Z;
  q_limit : option Z;
  q_sortField : option string;
  q_sortOrder : option string;
  q_filterModel : option string
}.

Record ListParams : Type := mkParams {
  skip : Z;
  limit : Z;
  sortField : string;
  sortOrder : string;
  filterModel : option string
}.

(** A pattern [^(a|b|...)$] matches exactly its alternatives (pydantic
    checks [pattern] with an engine whose [$] is the end of the text). *)
Definition matches_alternatives (alternatives : list string) (s : string)
    : bool :=
  existsb (String.eqb s) alternatives.

Definition datanode_sort_fields : list string :=
  ["pk"; "ctime"; "node_type"; "label"; "description"].

Definition workgraph_sort_fields : list string :=
  ["pk"; "ctime"; "process_label"; "state"; "label"; "description"].

Definition sort_orders : list string := ["asc"; "desc"].

Definition default {A : Type} (given : option A) (value : A) : A :=
  match given with
  | Some a => a
  | None => value
  end.

(** The declared [Query(...)] constraints: [skip: ge=0],
    [limit: gt=0, le=500] and the two patterns.  FastAPI collects the
    parameters that fail and, when there is one, raises before the handler
    is called. *)
Definition validate (sort_fields : list string) (q : ListQuery)
    : result ListParams :=
  let skip := default (q_skip q) 0 in
  let limit := default (q_limit q) 15 in
  let sortField := default (q_sortField q) "pk" in
  let sortOrder := default (q_sortOrder q) "desc" in
  let errors :=
    ((if 0 <=? skip then [] else ["skip"])
     ++ (if (0 <? limit) && (limit <=? 500) then [] else ["limit"])
     ++ (if matches_alternatives sort_fields sortField then []
         else ["sortField"])
     ++ (if matches_alternatives sort_orders sortOrder then []
         else ["sortOrder"]))%list in
  match errors with
  | [] => Ok (mkParams skip limit sortField sortOrder (q_filterModel q))
  | _ => Raise (RequestValidationError errors)
  end.

(** A query that breaks one of the declared constraints. *)
Definition out_of_range (sort_fields : list string) (q : ListQuery) : Prop :=
  default (q_skip q) 0 < 0
  \/ default (q_limit q) 15 <= 0
  \/ 500 < default (q_limit q) 15
  \/ ~ In (default (q_sortField q) "pk") sort_fields
  \/ ~ In (default (q_sortOrder q) "desc") sort_orders.

Fixpoint str_dict_get (d : list (string * string)) (k : string)
    : option string :=
  match d with
  | [] => None
  | (k', v) :: rest => if String.eqb k' k then Some v else str_dict_get rest k
  end.

Definition field_map : list (string * string) :=
  [("pk", "id"); ("ctime", "ctime"); ("node_type", "node_type");
   ("label", "label"); ("description", "description")].

Definition datanode_col_map : list (string * string) :=
  [("pk", "id"); ("ctime", "ctime"); ("node_type", "node_type");
   ("label", "label"); ("description", "description")].

Definition workgraph_col_map : list (string * string) :=
  [("pk", "id"); ("ctime", "ctime");
   ("process_label", "attributes.process_label");
   ("state", "attributes.process_state");
   ("status", "attributes.process_status");
   ("exit_status", "attributes.exit_status");
   ("exit_message", "attributes.exit_message");
   ("label", "label"); ("description", "description")].

Section Lists.
Context {py : Python} {db : Storage} {utils : Utils}.

(** [k in d] and [d[k]] for a dict literal with string keys and values *)
Definition in_str_dict (k : json) (d : list (string * string)) : result bool :=
  match k with
  | JStr s => Ok (existsb (String.eqb s) (map fst d))
  | JList _ | JDict _ => Raise (TypeError "unhashable type")
  | _ => Ok false
  end.

Definition str_dict_subscript (d : list (string * string)) (k : json)
    : result string :=
  match k with
  | JStr s =>
      match str_dict_get d s with
      | Some v => Ok v
      | None => Raise (KeyError (py_repr k))
      end
  | JList _ | JDict _ => Raise (TypeError "unhashable type")
  | _ => Raise (KeyError (py_repr k))
  end.

(** [{"like": f"%{value}%"}] *)
Definition like (value : json) : json :=
  JDict [("like", JStr ("%" ++ py_str value ++ "%"))].

(** The body of [for item in fm.get("items", [])]: the accumulator is the
    dict [filters]. *)
Definition translate_item (filters : list (string * json)) (item : json)
    : result (list (string * json)) :=
  field <- py_get item "field" JNull ;;
  value <- py_get item "value" JNull ;;
  operator <- py_get item "operator" (JStr "contains") ;;
  if negb (truthy value) then Ok filters
  else
    known <- in_str_dict field field_map ;;
    if negb known then Ok filters
    else
      col <- str_dict_subscript field_map field ;;
      if String.eqb col "id" then
        match py_int value with
        | Ok n => Ok (dict_set filters col (JInt n))
        | Raise (PyError "ValueError" _) => Ok filters
        | Raise e => Raise e
        end
      else if existsb (py_eq operator)
                [JStr "contains"; JStr "equals"; JStr "is"] then
        Ok (dict_set filters col (like value))
      else Ok filters.

(** [item.get(k, default)] for an item that is a dict. *)
Definition item_get (d : list (string * json)) (k : string) (dflt : json)
    : json :=
  match dict_get d k with
  | Some v => v
  | None => dflt
  end.



(** The body of [for value in qf_values] *)
Definition quick_filter_block (blocks : list json) (value : json)
    : result (list json) :=
  let like := like value in
  is_digit <-
    match value with
    | JStr s => Ok (str_isdigit s)
    | _ => Raise (AttributeError "object has no attribute 'isdigit'")
    end ;;
  by_id <- (if is_digit then n <- py_int value ;; Ok (JDict [("id", JInt n)])
            else Ok (JDict [])) ;;
  Ok (blocks ++ [JDict [("or", JList [by_id;
                                      JDict [("node_type", like)];
                                      JDict [("label", like)];
                                      JDict [("description", like)]])]])%list.

(** Lines 23 to 86 of [datanode.py]: the filter dict built from
    [filterModel]. *)
Definition datanode_filters (filterModel : option string) : result json :=
  match filterModel with
  | None => Ok (JDict [])
  | Some text =>
      if String.eqb text "" then Ok (JDict [])
      else
        match json_loads text with
        | None => Raise (HTTPException 400 "Invalid filterModel JSON")
        | Some fm =>
            items <- py_get fm "items" (JList []) ;;
            items <- py_iter items ;;
            filters <- for_each items translate_item [] ;;
            qf_values <- py_get fm "quickFilterValues" (JList []) ;;
            if truthy qf_values then
              values <- py_iter qf_values ;;
              or_blocks_per_value <- for_each values quick_filter_block [] ;;
              if truthy (JDict filters) then
                Ok (JDict [("and", JList (JDict filters :: or_blocks_per_value))])
              else Ok (JDict [("and", JList or_blocks_per_value)])
            else Ok (JDict filters)
        end
  end.

Definition datanode_row (row : list json) : result json :=
  match row with
  | [pk; uuid; ctime; node_type; label; description] =>
      Ok (JDict [("pk", pk);
                 ("uuid", uuid);
                 ("ctime", time_ago ctime);
                 ("node_type", node_type);
                 ("label", label);
                 ("description", description)])
  | _ => Raise (ValueError "wrong number of values to unpack")
  end.

Definition read_datanode_data (p : ListParams) : result json :=
  filters <- datanode_filters (filterModel p) ;;
  let qb := qb_append Data filters
              ["id"; "uuid"; "ctime"; "node_type"; "label"; "description"]
              "d" in
  col <- str_dict_subscript datanode_col_map (JStr (sortField p)) ;;
  let qb := qb_order_by qb "d" col (sortOrder p) in
  let total_rows := qb_count qb in
  let qb := qb_set_limit (qb_set_offset qb (skip p)) (limit p) in
  page <- comprehension datanode_row (qb_all qb) ;;
  Ok (JDict [("total", JInt total_rows); ("data", JList page)]).

(** Lines 32 to 37 of [workgraph.py] *)
Definition workgraph_filters (filterModel : option string) : result json :=
  match filterModel with
  | None => Ok (JDict [])
  | Some text =>
      if String.eqb text "" then Ok (JDict [])
      else translate_datagrid_filter_json text
  end.

Definition workgraph_row (row : list json) : result json :=
  match row with
  | [pk; uuid; ctime; plabel; state; status; exit_status; exit_message;
     label; description] =>
      state <- py_title state ;;
      Ok (JDict [("pk", pk);
                 ("uuid", uuid);
                 ("ctime", time_ago ctime);
                 ("process_label", plabel);
                 ("state", state);
                 ("status", status);
                 ("exit_status", exit_status);
                 ("exit_message", exit_message);
                 ("label", label);
                 ("description", description)])
  | _ => Raise (ValueError "wrong number of values to unpack")
  end.

Definition read_workgraph_data (p : ListParams) : result json :=
  filters <- workgraph_filters (filterModel p) ;;
  let qb := qb_append WorkGraphNodeClass filters
              ["id"; "uuid"; "ctime"; "attributes.process_label";
               "attributes.process_state"; "attributes.process_status";
               "attributes.exit_status"; "attributes.exit_message";
               "label"; "description"]
              "data" in
  col <- str_dict_subscript workgraph_col_map (JStr (sortField p)) ;;
  let qb := qb_order_by qb "data" col (sortOrder p) in
  let total_rows := qb_count qb in
  let qb := qb_set_limit (qb_set_offset qb (skip p)) (limit p) in
  page <- comprehension workgraph_row (qb_all qb) ;;
  Ok (JDict [("total", JInt total_rows); ("data", JList page)]).

(** What the client sees of a stored data node and of a stored workgraph
    node. *)
Definition datanode_record (e : entity) : json :=
  JDict [("pk", column e "id");
         ("uuid", column e "uuid");
         ("ctime", time_ago (column e "ctime"));
         ("node_type", column e "node_type");
         ("label", column e "label");
         ("description", column e "description")].


(** The process state of a stored workgraph node when it is a string. *)
Definition process_state (e : entity) : option string :=
  match column e "attributes.process_state" with
  | JStr s => Some s
  | _ => None
  end.

(** The entities of a page: those the filters select, in the order asked
    for, from position [skip] on and at most [limit] of them. *)
Definition page_entities (cls : orm_class) (filters : json)
    (col direction : string) (skip limit : Z) : list entity :=
  firstn (Z.to_nat limit)
    (skipn (Z.to_nat skip)
       (qb_sort col direction (filter (qb_matches filters) (stored cls)))).

(** The two routes: FastAPI validates the query, then calls the handler. *)
Definition get_datanode_data (q : ListQuery) : result json :=
  p <- validate datanode_sort_fields q ;;
  read_datanode_data p.

Definition get_workgraph_data (q : ListQuery) : result json :=
  p <- validate workgraph_sort_fields q ;;
  read_workgraph_data p.

End Lists.

(** ** api.py: the application-level exception handler *)

(** What the application sends back. *)
Inductive response : Type :=
| JSONResponse (status : Z) (content : json)
| FileResponse (path : string) (media_type : string)
| ServerError (e : exn).

Section Api.
(** [build_dir]: the React build, from [REACT_BUILD_DIR] or the default
    next to the backend. *)
Variable build_dir : string.
Variable request : Type.
(** [fastapi.exception_handlers]: the default handlers *)
Variable http_exception_handler : request -> Z -> string -> response.
Variable request_validation_exception_handler :
  request -> list string -> response.

(** The handler registered for [StarletteHTTPException]; [exc] is given
    by its [status_code] and [detail]. *)
Definition _spa_server (req : request) (status_code : Z) (detail : string)
    : response :=
  if status_code =? 404 then
    FileResponse (build_dir ++ "/index.html") "text/html"
  else http_exception_handler req status_code detail.

(** How the application turns the outcome of an endpoint into a
    response: a returned value is serialised with status 200, an
    [HTTPException] goes to the registered handler, a validation error to
    FastAPI's, anything else is an internal server error. *)
Definition respond (req : request) (outcome : result json) : response :=
  match outcome with
  | Ok v => JSONResponse 200 v
  | Raise (HTTPException code detail) => _spa_server req code detail
  | Raise (RequestValidationError params) =>
      request_validation_exception_handler req params
  | Raise e => ServerError e
  end.

End Api.

(** ** workgraph.py and datanode.py: the remaining endpoints *)

(** A stored data node: [node.backend_entity.attributes] and
    [node.node_type]. *)
Record DataNode : Type := mkDataNode {
  attributes : json;
  node_type : json
}.

(** What the remaining handlers call outside [src/]:
    [node_to_short_json] of [.utils], [get_processes_latest] of
    [aiida_workgraph.utils], [get_workchain_report] of
    [aiida.cmdline.utils.common], [str.splitlines], [setattr] and [getattr]
    on a loaded node, [orm.load_node] on the pk of a data node, and the
    order in which Python iterates over the set [{"label", "description"}]
    (some order of its two elements). *)
Class Backend (world : Type) : Type := {
  node_to_short_json : json -> json -> result json;
  get_processes_latest : Z -> string -> M world json;
  get_workchain_report : WorkGraphNode -> string -> M world string;
  splitlines : string -> list string;
  node_setattr : WorkGraphNode -> string -> string -> M world unit;
  node_getattr : WorkGraphNode -> string -> M world json;
  allowed_order : list string;
  allowed_order_permutation :
    Permutation allowed_order ["label"; "description"];
  load_data_node : Z -> M world DataNode
}.

(** [for x in xs: acc = body acc x] when the body calls the engine *)
Fixpoint for_each_M {world A B : Type} (xs : list A)
    (body : B -> A -> M world B) (acc : B) : M world B :=
  match xs with
  | [] => ret acc
  | x :: rest => mbind (body acc x) (for_each_M rest body)
  end.

(** [[f x for x in xs]] when [f] calls the engine *)
Fixpoint comprehension_M {world A B : Type} (f : A -> M world B)
    (xs : list A) : M world (list B) :=
  match xs with
  | [] => ret []
  | x :: rest =>
      mbind (f x) (fun y =>
      mbind (comprehension_M f rest) (fun ys => ret (y :: ys)))
  end.

Section Remaining.
Context {py : Python} {world : Type} {eng : Engine world}
  {back : Backend world}.

(** [executor if executor else {}] *)
Definition executor_or_empty (executor : json) : json :=
  if truthy executor then executor else JDict [].

(** [d.get(k)] for a key that is a value *)
Definition py_get_key (v k : json) : result json :=
  match v with
  | JDict d =>
      match k with
      | JStr s => py_get v s JNull
      | JList _ | JDict _ => Raise (TypeError "unhashable type")
      | _ => Ok JNull
      end
  | _ => Raise (AttributeError "object has no attribute 'get'")
  end.

(** One turn of the loop over [segments[2:]] in [read_task] *)
Definition descend_task (ndata : json) (segment : string) : result json :=
  executor <- subscript ndata (JStr "executor") ;;
  graph_data <- subscript executor (JStr "graph_data") ;;
  tasks <- subscript graph_data (JStr "tasks") ;;
  subscript tasks (JStr segment).

(** The WORKGRAPH branch of [read_task]: [second] is [segments[1]] and
    [rest] is [segments[2:]]. *)
Definition task_in_workgraph (executor : json) (second : string)
    (rest : list string) : result json :=
  graph_data <- subscript executor (JStr "graph_data") ;;
  tasks <- subscript graph_data (JStr "tasks") ;;
  ndata <- subscript tasks (JStr second) ;;
  ndata <- for_each rest descend_task ndata ;;
  node_to_short_json JNull ndata.

(** The loop over [map_info["prefix"]] in [read_task], which stops at the
    first prefix whose name is [segments[1]]: the new [ndata] when there
    is one. *)
Fixpoint match_prefix (node : WorkGraphNode) (child : json)
    (second : string) (prefixes : list json) : result (option json) :=
  match prefixes with
  | [] => Ok None
  | prefix :: rest =>
      if String.eqb (map_task_name prefix child) second then
        ndata <- child_data node child ;;
        executor <- py_get_key (task_executors node) child ;;
        ndata <- setitem ndata "name" (JStr (map_task_name prefix child)) ;;
        ndata <- setitem ndata "executor" (executor_or_empty executor) ;;
        Ok (Some ndata)
      else match_prefix node child second rest
  end.

(** The body of the loop over [map_info["children"]] in [read_task] *)
Definition match_child (node : WorkGraphNode) (map_info : json)
    (second : string) (ndata child : json) : result json :=
  prefixes <- subscript map_info (JStr "prefix") ;;
  prefixes <- py_iter prefixes ;;
  found <- match_prefix node child second prefixes ;;
  match found with
  | Some ndata' => Ok ndata'
  | None => Ok ndata
  end.

(** The MAP branch of [read_task] *)
Definition task_in_map (node : WorkGraphNode) (id : Z) (first second : string)
    (ndata : json) : result json :=
  map_info <- py_get (task_map_info node) first JNull ;;
  children <- subscript map_info (JStr "children") ;;
  children <- py_iter children ;;
  ndata <- for_each children (match_child node map_info second) ndata ;;
  node_to_short_json (JInt id) ndata.

(** The [try] block of [read_task] after [load_node] *)
Definition task_body (node : WorkGraphNode) (id : Z) (path : string)
    : result json :=
  match split "/" path with
  | [] => Raise (IndexError "list index out of range")
  | first :: others =>
      tasks <- subscript (workgraph_data node) (JStr "tasks") ;;
      ndata <- subscript tasks (JStr first) ;;
      ndata <- deserialize_unsafe ndata ;;
      executor <- py_get (task_executors node) first JNull ;;
      match others with
      | [] =>
          ndata <- setitem ndata "executor" (executor_or_empty executor) ;;
          node_to_short_json (JInt id) ndata
      | second :: rest =>
          node_type <- node_type_upper ndata ;;
          if String.eqb node_type "WORKGRAPH" then
            task_in_workgraph executor second rest
          else
            node_type <- node_type_upper ndata ;;
            if String.eqb node_type "MAP" then
              task_in_map node id first second ndata
            else Raise (UnboundLocalError
                          "cannot access local variable 'content'")
      end
  end.

(** The [try] block of [read_task] *)
Definition read_task_try (id : Z) (path : string) : M world json :=
  mbind (load_node id) (fun node => lift (task_body node id path)).

Definition read_task (id : Z) (path : string) : M world json :=
  try_except_KeyError (read_task_try id path)
    (fun shown =>
       raise (HTTPException 404
                ("Workgraph " ++ string_of_Z id ++ "/" ++ path
                 ++ " not found, " ++ shown))).




(** [key not in allowed] *)
Definition allowed (key : string) : bool :=
  String.eqb key "label" || String.eqb key "description".

(** The body of [for key, value in payload.items()]: the accumulator is
    [changed]. *)
Definition update_field (node : WorkGraphNode) (changed : bool)
    (item : string * string) : M world bool :=
  if negb (allowed (fst item)) then ret changed
  else mbind (node_setattr node (fst item) (snd item)) (fun _ => ret true).

(** [update_workgraph_node]: the payload is a dict of strings. *)
Definition update_workgraph_node (id : Z) (payload : list (string * string))
    : M world json :=
  mbind (try_except_Exception (load_node id)
           (fun _ =>
              raise (HTTPException 404
                       ("WorkGraph " ++ string_of_Z id ++ " not found"))))
    (fun node =>
  mbind (for_each_M payload (update_field node) false) (fun changed =>
  if negb changed then
    raise (HTTPException 400 "No updatable fields provided")
  else
    mbind (comprehension_M
             (fun k => mbind (node_getattr node k) (fun v => ret (k, v)))
             allowed_order) (fun fields =>
    ret (JDict (fold_left (fun d kv => dict_set d (fst kv) (snd kv)) fields
                  [("updated", JBool true); ("pk", JInt id)]))))).

(** The [try] block of [read_data_node_item] *)
Definition read_data_node_item_try (id : Z) : M world json :=
  mbind (load_data_node id) (fun node =>
  lift (setitem (attributes node) "node_type" (node_type node))).

Definition read_data_node_item (id : Z) : M world json :=
  try_except_KeyError (read_data_node_item_try id)
    (fun shown =>
       raise (HTTPException 404
                ("Data node " ++ string_of_Z id ++ " not found"))).

End Remaining.

(** ** The shape of the filters handed to the QueryBuilder *)

(** [{"like": <str>}] *)
Definition is_like (v : json) : bool :=
  match v with
  | JDict [(operator, JStr _)] => String.eqb operator "like"
  | _ => false
  end.

(** An entry of the dict built from the items: an integer on ["id"] or a
    [like] on one of the four text columns. *)
Definition column_condition (entry : string * json) : bool :=
  match snd entry with
  | JInt _ => String.eqb (fst entry) "id"
  | v =>
      is_like v
      && existsb (String.eqb (fst entry))
           ["ctime"; "node_type"; "label"; "description"]
  end.

Definition item_filters (f : json) : bool :=
  match f with
  | JDict d => forallb column_condition d
  | _ => false
  end.

(** The block of one quick-filter value: an ["or"] over the id (or an
    empty dict) and a [like] on node_type, label and description. *)
Definition quick_block (block : json) : bool :=
  match block with
  | JDict [(connective,
            JList [by_id; JDict [(c1, l1)]; JDict [(c2, l2)];
                   JDict [(c3, l3)]])] =>
      String.eqb connective "or"
      && match by_id with
         | JDict [] => true
         | JDict [(c0, JInt _)] => String.eqb c0 "id"
         | _ => false
         end
      && String.eqb c1 "node_type" && is_like l1
      && String.eqb c2 "label" && is_like l2
      && String.eqb c3 "description" && is_like l3
  | _ => false
  end.

(** What [filters] can be when the query is built: the dict of the items,
    or an ["and"] over the quick-filter blocks, headed by the dict of the
    items when that is not empty. *)
Definition built_filters (f : json) : bool :=
  match f with
  | JDict [(connective, JList blocks)] =>
      String.eqb connective "and"
      && (forallb quick_block blocks
          || match blocks with
             | first :: rest =>
                 item_filters first && truthy first
                 && forallb quick_block rest
             | [] => false
             end)
  | _ => item_filters f
  end.

(** ** Outcomes as responses *)

(** The outcome is not an [HTTPException]. *)
Definition no_http {A : Type} (r : result A) : Prop :=
  match r with
  | Raise (HTTPException _ _) => False
  | _ => True
  end.


Section Answers.
Variable build_dir : string.
Variable request : Type.
Variable http_exception_handler : request -> Z -> string -> response.
Variable request_validation_exception_handler :
  request -> list string -> response.



End Answers.

(** ** A scripted engine

    A small concrete engine and runtime on which the statements below are
    evaluated: the world is the journal of the calls made so far, node 1 is
    a workgraph with a sub-workgraph task [sub] (holding a nested task
    [inner]) and a map task [loop] over the children [add] and [mul]. *)
Module Script.

Definition journal : Type := list string.

Definition call {A : Type} (entry : string) (r : result A) : M journal A :=
  fun w => (r, (w ++ [entry])%list).

Definition is_digit (c : ascii) : bool :=
  let n := nat_of_ascii c in ((48 <=? n) && (n <=? 57))%nat.

Fixpoint digits_value (acc : Z) (s : string) : option Z :=
  match s with
  | EmptyString => Some acc
  | String c rest =>
      if is_digit c then
        digits_value (10 * acc + Z.of_nat (nat_of_ascii c - 48)) rest
      else None
  end.

Definition parse_int (s : string) : option Z :=
  match s with
  | EmptyString => None
  | String "-" (String c rest) =>
      option_map Z.opp (digits_value 0 (String c rest))
  | _ => digits_value 0 s
  end.

Definition all_digits (s : string) : bool :=
  match s with
  | EmptyString => false
  | _ => forallb is_digit (list_ascii_of_string s)
  end.

(** The filter models the script knows, by name, and what they decode
    to; every other text is not JSON. *)
Definition decode (text : string) : option json :=
  if String.eqb text "{}" then Some (JDict [])
  else if String.eqb text "[]" then Some (JList [])
  else if String.eqb text "label-and-pk" then
    Some (JDict [("items",
                  JList [JDict [("field", JStr "label");
                                ("operator", JStr "equals");
                                ("value", JStr "relax")];
                         JDict [("field", JStr "pk");
                                ("value", JStr "twelve")];
                         JDict [("field", JStr "owner");
                                ("value", JStr "me")];
                         JDict [("field", JStr "pk");
                                ("value", JStr "12")]])])
  else if String.eqb text "pk-is-a-list" then
    Some (JDict [("items",
                  JList [JDict [("field", JStr "pk");
                                ("value", JList [JInt 1])]])])
  else None.

Definition python : Python := {|
  py_repr := fun v => "'" ++ match v with JStr s => s | _ => "?" end ++ "'";
  py_str_compound := fun _ => "?";
  int_of_str := parse_int;
  str_isdigit := all_digits;
  json_loads := decode;
  http_exception_str := fun code detail => string_of_Z code ++ ": " ++ detail
|}.

Definition task_of_type (node_type : string) : json :=
  JDict [("metadata", JDict [("node_type", JStr node_type)])].

Definition inner_graph : json :=
  JDict [("name", JStr "inner"); ("tasks", JDict []); ("links", JList [])].

Definition sub_graph : json :=
  JDict [("name", JStr "sub");
         ("tasks",
          JDict [("inner",
                  JDict [("executor",
                          JDict [("graph_data", inner_graph)])])]);
         ("links", JList [])].

Definition link (from_node to_node : string) : json :=
  JDict [("from_node", JStr from_node); ("from_socket", JStr "result");
         ("to_node", JStr to_node); ("to_socket", JStr "x")].

Definition node1 : WorkGraphNode := {|
  process_label := JStr "WorkGraph<demo>";
  workgraph_data :=
    JDict [("tasks", JDict [("sub", JStr "yaml:sub");
                            ("loop", JStr "yaml:loop");
                            ("add", JStr "yaml:add");
                            ("mul", JStr "yaml:mul")])];
  workgraph_data_short := JDict [("name", JStr "demo")];
  task_executors := JDict [("sub", JDict [("graph_data", sub_graph)])];
  task_map_info :=
    JDict [("loop",
            JDict [("children", JList [JStr "add"; JStr "mul"]);
                   ("prefix", JList [JStr "a"; JStr "b"]);
                   ("links", JList [link "add" "mul";
                                    link "add" "collect"])])]
|}.

Definition deserialize (raw : json) : result json :=
  match raw with
  | JStr "yaml:sub" => Ok (task_of_type "WorkGraph")
  | JStr "yaml:loop" => Ok (task_of_type "Map")
  | JStr "yaml:add" => Ok (task_of_type "Normal")
  | JStr "yaml:mul" => Ok (task_of_type "Normal")
  | _ => Raise (ValueError "cannot deserialize")
  end.

Definition engine : Engine journal := {|
  load_node := fun id =>
    call "load_node"
      (if id =? 1 then Ok node1
       else Raise (PyError "NotExistent" "no node found"));
  pause_processes := fun _ => call "pause_processes" (Ok tt);
  play_processes := fun _ => call "play_processes" (Ok tt);
  delete_nodes := fun pks dry_run =>
    call "delete_nodes" (Ok (pks, negb dry_run));
  pause_tasks := fun _ _ => call "pause_tasks" (Ok (JNull, JStr "paused"));
  play_tasks := fun _ _ => call "play_tasks" (Ok (JNull, JStr "played"));
  kill_tasks := fun _ _ => call "kill_tasks" (Ok (JNull, JStr "killed"));
  deserialize_unsafe := deserialize;
  workgraph_to_short_json := fun graph_data => Ok graph_data;
  shallow_copy_nested_dict := fun d => d;
  get_parent_workgraphs := fun id =>
    call "get_parent_workgraphs"
      (Ok [JList [JStr "WorkGraph<demo>"; JInt id];
           JList [JStr "WorkGraph<outer>"; JInt 0]]);
  get_node_summary := fun _ => call "get_node_summary" (Ok (JList []));
  get_node_inputs := fun _ => call "get_node_inputs" (Ok (JDict []));
  get_node_outputs := fun _ => call "get_node_outputs" (Ok (JDict []))
|}.

(** Rows are dicts; a filter dict is read as a conjunction of equalities
    and [like] patterns on columns, ordering is an insertion sort on an
    integer column. *)
Definition row : Type := list (string * json).

Definition cell (r : row) (col : string) : json :=
  match dict_get r col with
  | Some v => v
  | None => JNull
  end.

Definition strip_percent (pattern : string) : string :=
  match pattern with
  | String "%" rest =>
      substring 0 (String.length rest - 1) rest
  | _ => pattern
  end.

Definition holds (r : row) (condition : string * json) : bool :=
  match snd condition with
  | JDict [("like", JStr pattern)] =>
      match cell r (fst condition) with
      | JStr s => is_substring (strip_percent pattern) s
      | _ => false
      end
  | expected => py_eq (cell r (fst condition)) expected
  end.

Definition selects (filters : json) (r : row) : bool :=
  match filters with
  | JDict conditions => forallb (holds r) conditions
  | _ => true
  end.

Definition before (col direction : string) (a b : row) : bool :=
  match cell a col, cell b col with
  | JInt x, JInt y => if String.eqb direction "desc" then y <=? x else x <=? y
  | _, _ => true
  end.

Fixpoint insert_row (col direction : string) (r : row) (rows : list row)
    : list row :=
  match rows with
  | [] => [r]
  | r' :: rest =>
      if before col direction r r' then r :: rows
      else r' :: insert_row col direction r rest
  end.

Fixpoint sort_rows (col direction : string) (rows : list row) : list row :=
  match rows with
  | [] => []
  | r :: rest => insert_row col direction r (sort_rows col direction rest)
  end.

Lemma insert_row_permutation (col direction : string) (r : row)
    (rows : list row) :
  Permutation (insert_row col direction r rows) (r :: rows).
Proof.
  induction rows as [|r' rows IH]; simpl; [apply Permutation_refl|].
  destruct (before col direction r r'); [apply Permutation_refl|].
  eapply Permutation_trans; [apply perm_skip, IH|apply perm_swap].
Qed.

Lemma sort_rows_permutation (col direction : string) (rows : list row) :
  Permutation (sort_rows col direction rows) rows.
Proof.
  induction rows as [|r rows IH]; simpl; [apply perm_nil|].
  eapply Permutation_trans; [apply insert_row_permutation|].
  apply perm_skip, IH.
Qed.

Definition data_row (pk : Z) (node_type label : string) : row :=
  [("id", JInt pk); ("uuid", JStr ("uuid-" ++ string_of_Z pk));
   ("ctime", JInt (1000 + pk)); ("node_type", JStr node_type);
   ("label", JStr label); ("description", JStr "")].

Definition process_row (pk : Z) (state label : string) : row :=
  [("id", JInt pk); ("uuid", JStr ("uuid-" ++ string_of_Z pk));
   ("ctime", JInt (1000 + pk));
   ("attributes.process_label", JStr "WorkGraph<demo>");
   ("attributes.process_state", JStr state);
   ("attributes.process_status", JNull);
   ("attributes.exit_status", JInt 0);
   ("attributes.exit_message", JNull);
   ("label", JStr label); ("description", JStr "")].

Definition storage : Storage := {|
  entity := row;
  stored := fun cls =>
    match cls with
    | Data =>
        [data_row 3 "data.core.int.Int." "relax";
         data_row 12 "data.core.str.Str." "relaxed cell";
         data_row 7 "data.core.int.Int." "bands";
         data_row 9 "data.core.dict.Dict." "relax inputs"]
    | WorkGraphNodeClass =>
        [process_row 21 "finished" "first";
         process_row 25 "waiting" "second";
         process_row 23 "excepted" "third"]
    end;
  column := cell;
  qb_matches := selects;
  qb_sort := sort_rows;
  qb_sort_permutation := sort_rows_permutation
|}.

Definition utils : Utils := {|
  time_ago := fun ctime => JStr (py_str (py := python) ctime ++ "s ago");
  translate_datagrid_filter_json := fun text =>
    match decode text with
    | Some (JDict _) => Ok (JDict [])
    | _ => Raise (HTTPException 400 "Invalid filterModel JSON")
    end
|}.

End Script.

(** ** A scripted backend

    The script extended to the remaining endpoints: data node 5 has
    attributes, among them a stale ["node_type"]; setting and reading an
    attribute of a node is journalled. *)
Module ScriptMore.

Definition node5 : DataNode := {|
  attributes := JDict [("value", JInt 3); ("node_type", JStr "stale")];
  node_type := JStr "data.core.int.Int."
|}.

Definition backend : Backend Script.journal := {|
  node_to_short_json := fun id ndata =>
    Ok (JDict [("id", id); ("task", ndata)]);
  get_processes_latest := fun id item_type =>
    Script.call "get_processes_latest"
      (if id =? 1 then Ok (JDict [("item_type", JStr item_type)])
       else Raise (KeyError "'workgraph_data'"));
  get_workchain_report := fun _ _ =>
    Script.call "get_workchain_report" (Ok "report");
  splitlines := fun report => [report];
  node_setattr := fun _ key value =>
    Script.call ("setattr " ++ key ++ " " ++ value) (Ok tt);
  node_getattr := fun _ key =>
    Script.call ("getattr " ++ key) (Ok (JStr ("new " ++ key)));
  allowed_order := ["description"; "label"];
  allowed_order_permutation := perm_swap "label" "description" [];
  load_data_node := fun id =>
    Script.call "load_node"
      (if id =? 5 then Ok node5
       else Raise (PyError "NotExistent" "no node found"))
|}.

(** The runtime of the script with one more filter model, which has
    quick-filter values. *)
Definition quick_model : list (string * json) :=
  [("items", JList [JDict [("field", JStr "label");
                           ("value", JStr "relax")]]);
   ("quickFilterValues", JList [JStr "12"; JStr "int"])].

Definition python : Python := {|
  py_repr := py_repr (Python := Script.python);
  py_str_compound := py_str_compound (Python := Script.python);
  int_of_str := int_of_str (Python := Script.python);
  str_isdigit := str_isdigit (Python := Script.python);
  json_loads := fun text =>
    if String.eqb text "label-and-quick" then Some (JDict quick_model)
    else json_loads (Python := Script.python) text;
  http_exception_str := http_exception_str (Python := Script.python)
|}.

(** The same database with one more workgraph node, stored without a
    process state. *)
Definition draft_row : Script.row :=
  [("id", JInt 27); ("uuid", JStr "uuid-27"); ("ctime", JInt 1027);
   ("attributes.process_label", JStr "WorkGraph<demo>");
   ("label", JStr "draft"); ("description", JStr "")].

Definition storage_with_draft : Storage := {|
  entity := Script.row;
  stored := fun cls =>
    match cls with
    | Data => stored (Storage := Script.storage) Data
    | WorkGraphNodeClass =>
        (stored (Storage := Script.storage) WorkGraphNodeClass
         ++ [draft_row])%list
    end;
  column := Script.cell;
  qb_matches := Script.selects;
  qb_sort := Script.sort_rows;
  qb_sort_permutation := Script.sort_rows_permutation
|}.

End ScriptMore.

(** * Properties *)

(** ** Decimal text of an integer *)

Lemma last_char_app (s t : string) :
  t <> EmptyString -> last_char (s ++ t) = last_char t.
Proof.
  intros Ht. unfold last_char.
  induction s as [|c s IH]; simpl; [reflexivity|].
  rewrite <- IH.
  destruct (s ++ t) eqn:E; [|reflexivity].
  destruct s; simpl in E; [contradiction|discriminate].
Qed.

Lemma last_char_cons (c : ascii) (s : string) :
  s <> EmptyString -> last_char (String c s) = last_char s.
Proof.
  intros Hs. destruct s; [contradiction|reflexivity].
Qed.

Lemma string_of_uint_last (d : Decimal.uint) :
  d <> Decimal.Nil ->
  exists c, last_char (NilZero.string_of_uint d) = Some c /\ digit_char c.
Proof.
  induction d as [|d IH|d IH|d IH|d IH|d IH|d IH|d IH|d IH|d IH|d IH];
    intros Hd; [contradiction| | | | | | | | | |];
    (destruct (Decimal.uint_eq_dec d Decimal.Nil) as [->|Hn];
     [eexists; split; [reflexivity|unfold digit_char; simpl; tauto]
     |destruct (IH Hn) as [c [Hc Hdig]]; exists c; split; [|exact Hdig];
      rewrite <- Hc; destruct d; try contradiction; reflexivity]).
Qed.

Lemma string_of_Z_last (n : Z) :
  exists c, last_char (string_of_Z n) = Some c /\ digit_char c.
Proof.
  unfold string_of_Z.
  destruct n as [|p|p]; simpl.
  - exists "0"%char. split; [reflexivity|unfold digit_char; simpl; tauto].
  - apply string_of_uint_last, Unsigned.to_uint_nonnil.
  - destruct (string_of_uint_last (Unsigned.to_uint_nonnil p))
      as [c [Hc Hdig]].
    exists c. split; [|exact Hdig].
    rewrite last_char_cons; [exact Hc|].
    intros E. rewrite E in Hc. discriminate.
Qed.

Lemma string_of_Z_nonempty (n : Z) : string_of_Z n <> EmptyString.
Proof.
  destruct (string_of_Z_last n) as [c [Hc _]].
  intros E. rewrite E in Hc. discriminate.
Qed.

(** ** [str.endswith] *)

Lemma endswith_app (s suffix : string) : endswith (s ++ suffix) suffix = true.
Proof.
  induction s as [|c s IH]; simpl.
  - destruct suffix; simpl; rewrite ?Ascii.eqb_refl, ?String.eqb_refl;
      reflexivity.
  - rewrite IH. apply orb_true_r.
Qed.

Lemma endswith_last (s suffix : string) :
  suffix <> EmptyString ->
  endswith s suffix = true -> last_char s = last_char suffix.
Proof.
  intros Hsuf. induction s as [|c s IH]; cbn [endswith]; intros Hend.
  - rewrite orb_false_r in Hend. apply String.eqb_eq in Hend. congruence.
  - apply orb_true_iff in Hend. destruct Hend as [Heq|Hend].
    + apply String.eqb_eq in Heq. rewrite Heq. reflexivity.
    + rewrite <- (IH Hend). apply last_char_cons.
      intros E. subst s. cbn [endswith] in Hend.
      rewrite orb_false_r in Hend. apply String.eqb_eq in Hend. congruence.
Qed.

Lemma not_endswith_dry_run (label : string) (id : Z) :
  endswith (label ++ string_of_Z id) " [dry-run]" = false.
Proof.
  destruct (endswith (label ++ string_of_Z id) " [dry-run]") eqn:E;
    [|reflexivity].
  apply endswith_last in E; [|discriminate].
  rewrite last_char_app in E by apply string_of_Z_nonempty.
  destruct (string_of_Z_last id) as [c [Hc Hdig]].
  rewrite Hc in E. injection E as ->.
  unfold digit_char in Hdig. simpl in Hdig.
  repeat (destruct Hdig as [Hdig|Hdig]; [discriminate|]). contradiction.
Qed.

(** ** The control endpoints *)

Section ControlFacts.
Context {py : Python} {world : Type} {eng : Engine world}.

(** C6. POST /api/workgraph/pause/{id} and /api/workgraph/play/{id}: the
    handler loads the node, then calls [pause_processes] (respectively
    [play_processes]) on the list holding just that node; when both
    succeed it returns exactly the one-key message dict, and when either
    raises it raises HTTP 500 with the exception's string as detail.  The
    outcome is therefore a value or an HTTP 500, never an HTTP 404. *)
Theorem pause_play_outcome (id : Z) (w : world) :
  pause_workgraph id w =
    match load_node id w with
    | (Raise e, w1) => (Raise (HTTPException 500 (str_exn e)), w1)
    | (Ok node, w1) =>
        match pause_processes [node] w1 with
        | (Raise e, w2) => (Raise (HTTPException 500 (str_exn e)), w2)
        | (Ok _, w2) =>
            (Ok (JDict [("message",
                         JStr ("Send message to pause workgraph "
                               ++ string_of_Z id))]), w2)
        end
    end
  /\ play_workgraph id w =
    match load_node id w with
    | (Raise e, w1) => (Raise (HTTPException 500 (str_exn e)), w1)
    | (Ok node, w1) =>
        match play_processes [node] w1 with
        | (Raise e, w2) => (Raise (HTTPException 500 (str_exn e)), w2)
        | (Ok _, w2) =>
            (Ok (JDict [("message",
                         JStr ("Send message to play workgraph "
                               ++ string_of_Z id))]), w2)
        end
    end
  /\ match fst (pause_workgraph id w) with
     | Ok _ => True
     | Raise e => exists detail, e = HTTPException 500 detail
     end
  /\ match fst (play_workgraph id w) with
     | Ok _ => True
     | Raise e => exists detail, e = HTTPException 500 detail
     end.
Proof.
  unfold pause_workgraph, play_workgraph, try_except_Exception, mbind, ret,
    raise.
  destruct (load_node id w) as [[node|e] w1]; simpl.
  - destruct (pause_processes [node] w1) as [[[]|e1] w2];
      destruct (play_processes [node] w1) as [[[]|e2] w3]; simpl;
      repeat split; eauto.
  - repeat split; eauto.
Qed.

(** C5. DELETE /api/workgraph/delete/{id} and /api/datanode/delete/{id}:
    ['deleted'] is the boolean [delete_nodes([id], dry_run=dry_run)]
    returned, ['deleted_nodes'] lists the pks it returned, and when nothing
    was deleted the message ends with " [dry-run]" exactly when [dry_run]
    is true; an exception raised by [delete_nodes] becomes HTTP 500 with the
    exception's string as detail. *)
Theorem delete_outcome (id : Z) (dry_run : bool) (w : world) :
  match delete_nodes [id] dry_run w with
  | (Raise e, w') =>
      delete_workgraph id dry_run w
        = (Raise (HTTPException 500 (str_exn e)), w')
      /\ delete_data_node id dry_run w
        = (Raise (HTTPException 500 (str_exn e)), w')
  | (Ok (pks, was_deleted), w') =>
      exists wg_message data_message,
        delete_workgraph id dry_run w
          = (Ok (JDict [("deleted", JBool was_deleted);
                        ("message", JStr wg_message);
                        ("deleted_nodes", JList (map JInt pks))]), w')
        /\ delete_data_node id dry_run w
          = (Ok (JDict [("deleted", JBool was_deleted);
                        ("message", JStr data_message);
                        ("deleted_nodes", JList (map JInt pks))]), w')
        /\ (if was_deleted then True
            else endswith wg_message " [dry-run]" = dry_run
                 /\ endswith data_message " [dry-run]" = dry_run)
  end.
Proof.
  unfold delete_workgraph, delete_data_node, try_except_Exception, mbind,
    ret, raise.
  destruct (delete_nodes [id] dry_run w) as [[[pks was]|e] w'];
    cbv beta iota zeta; [|split; reflexivity].
  destruct was; cbv beta iota.
  - do 2 eexists. repeat split.
  - do 2 eexists. split; [reflexivity|]. split; [reflexivity|].
    destruct dry_run.
    + split; apply endswith_app.
    + split; apply not_endswith_dry_run.
Qed.

(** C9. [manage_task_action]: an action other than "pause", "play" and
    "kill" ends in HTTP 500 whose detail is the string of the HTTP 400
    "Unsupported action" raised inside the [try], with no call into the
    engine; each supported action calls its control function with the
    workgraph id and the task list and returns the message under
    ["message"] (and an exception of that call becomes HTTP 500). *)
Theorem manage_task_action_outcome (action : string) (id : Z)
    (tasks : option (list string)) (w : world) :
  (action <> "pause" -> action <> "play" -> action <> "kill" ->
   manage_task_action action id tasks w
     = (Raise (HTTPException 500
                 (str_exn (HTTPException 400 "Unsupported action"))), w))
  /\ manage_task_action "pause" id tasks w =
       match pause_tasks id tasks w with
       | (Ok (_, msg), w') => (Ok (JDict [("message", msg)]), w')
       | (Raise e, w') => (Raise (HTTPException 500 (str_exn e)), w')
       end
  /\ manage_task_action "play" id tasks w =
       match play_tasks id tasks w with
       | (Ok (_, msg), w') => (Ok (JDict [("message", msg)]), w')
       | (Raise e, w') => (Raise (HTTPException 500 (str_exn e)), w')
       end
  /\ manage_task_action "kill" id tasks w =
       match kill_tasks id tasks w with
       | (Ok (_, msg), w') => (Ok (JDict [("message", msg)]), w')
       | (Raise e, w') => (Raise (HTTPException 500 (str_exn e)), w')
       end.
Proof.
  unfold manage_task_action, try_except_Exception, mbind, ret, raise.
  split; [|split; [|split]].
  - intros Hpause Hplay Hkill.
    apply String.eqb_neq in Hpause, Hplay, Hkill.
    rewrite Hpause, Hplay, Hkill. reflexivity.
  - simpl. destruct (pause_tasks id tasks w) as [[[x msg]|e] w'];
      reflexivity.
  - simpl. destruct (play_tasks id tasks w) as [[[x msg]|e] w'];
      reflexivity.
  - simpl. destruct (kill_tasks id tasks w) as [[[x msg]|e] w'];
      reflexivity.
Qed.

End ControlFacts.

Lemma manage_task_action_outcome_witness :
  @manage_task_action Script.python Script.journal Script.engine
      "restart" 1 (Some ["add"]) []
    = (Raise (HTTPException 500 "400: Unsupported action"), []).
Proof.
  apply (@manage_task_action_outcome Script.python Script.journal
           Script.engine "restart" 1 (Some ["add"]) []); discriminate.
Defined.

(** ** The exception handler of the application *)

(** C4. An [HTTPException] with status code 404, those the endpoints raise
    included, is answered with the React build's [index.html] as
    [text/html]; one with any other status code is handed to FastAPI's
    default HTTP exception handler. *)
Theorem spa_server_404 (build_dir : string) (request : Type)
    (http_exception_handler : request -> Z -> string -> response)
    (validation_handler : request -> list string -> response)
    (req : request) (status_code : Z) (detail : string) :
  (status_code = 404 ->
   _spa_server build_dir http_exception_handler req status_code detail
     = FileResponse (build_dir ++ "/index.html") "text/html"
   /\ respond build_dir http_exception_handler validation_handler req
        (Raise (HTTPException status_code detail))
     = FileResponse (build_dir ++ "/index.html") "text/html")
  /\ (status_code <> 404 ->
      _spa_server build_dir http_exception_handler req status_code detail
        = http_exception_handler req status_code detail
      /\ respond build_dir http_exception_handler validation_handler req
           (Raise (HTTPException status_code detail))
        = http_exception_handler req status_code detail).
Proof.
  unfold respond, _spa_server. split.
  - intros ->. split; reflexivity.
  - intros Hne. apply Z.eqb_neq in Hne. rewrite Hne. split; reflexivity.
Qed.

Lemma spa_server_404_witness :
  respond "/srv/build"
      (fun (_ : unit) code detail =>
         JSONResponse code (JDict [("detail", JStr detail)]))
      (fun _ params => JSONResponse 422 (JList (map JStr params)))
      tt (Raise (HTTPException 404 "Workgraph 7 not found, 'tasks'"))
    = FileResponse "/srv/build/index.html" "text/html"
  /\ respond "/srv/build"
      (fun (_ : unit) code detail =>
         JSONResponse code (JDict [("detail", JStr detail)]))
      (fun _ params => JSONResponse 422 (JList (map JStr params)))
      tt (Raise (HTTPException 500 "no node found"))
    = JSONResponse 500 (JDict [("detail", JStr "no node found")]).
Proof.
  split.
  - apply (spa_server_404 "/srv/build"
             (fun (_ : unit) code detail =>
                JSONResponse code (JDict [("detail", JStr detail)]))
             (fun _ params => JSONResponse 422 (JList (map JStr params)))
             tt 404 "Workgraph 7 not found, 'tasks'").
    reflexivity.
  - apply (spa_server_404 "/srv/build"
             (fun (_ : unit) code detail =>
                JSONResponse code (JDict [("detail", JStr detail)]))
             (fun _ params => JSONResponse 422 (JList (map JStr params)))
             tt 500 "no node found").
    discriminate.
Defined.

(** ** Dicts *)

Lemma dict_get_set_same (d : list (string * json)) (k : string) (v : json) :
  dict_get (dict_set d k v) k = Some v.
Proof.
  induction d as [|[k' v'] d IH]; simpl.
  - rewrite String.eqb_refl. reflexivity.
  - destruct (String.eqb k' k) eqn:E; simpl; rewrite E; auto.
Qed.

Lemma dict_get_set_other (d : list (string * json)) (k k' : string)
    (v : json) :
  k <> k' -> dict_get (dict_set d k v) k' = dict_get d k'.
Proof.
  intros Hne. induction d as [|[k0 v0] d IH]; simpl.
  - destruct (String.eqb k k') eqn:E; [|reflexivity].
    apply String.eqb_eq in E. contradiction.
  - destruct (String.eqb k0 k) eqn:E; simpl.
    + apply String.eqb_eq in E. subst k0.
      destruct (String.eqb k k') eqn:E'; [|reflexivity].
      apply String.eqb_eq in E'. contradiction.
    + rewrite IH. reflexivity.
Qed.

(** ** Loops *)

Lemma for_each_app {A B : Type} (xs ys : list A) (body : B -> A -> result B)
    (acc : B) :
  for_each (xs ++ ys) body acc
    = bind (for_each xs body acc) (for_each ys body).
Proof.
  revert acc. induction xs as [|x xs IH]; intros acc; simpl; [reflexivity|].
  destruct (body acc x); simpl; auto.
Qed.

(** ** Reading a workgraph and its sub-graphs *)

Section ReadingFacts.
Context {py : Python} {world : Type} {eng : Engine world}.

Lemma reaches_for_each (rest : list string) (g g' : json) :
  reaches g rest g' <-> for_each rest descend g = Ok g'.
Proof.
  split.
  - induction 1 as [g|g tasks task executor g' g'' segment rest
                      H1 H2 H3 H4 _ IH]; [reflexivity|].
    cbn [for_each]. unfold descend at 1.
    rewrite H1; cbn [bind]. rewrite H2; cbn [bind].
    rewrite H3; cbn [bind]. rewrite H4; cbn [bind]. exact IH.
  - revert g. induction rest as [|segment rest IH]; intros g Hrun.
    + injection Hrun as ->. constructor.
    + cbn [for_each] in Hrun. unfold descend at 1 in Hrun.
      destruct (subscript g (JStr "tasks")) as [tasks|] eqn:H1;
        [|discriminate].
      cbn [bind] in Hrun.
      destruct (subscript tasks (JStr segment)) as [task|] eqn:H2;
        [|discriminate].
      cbn [bind] in Hrun.
      destruct (subscript task (JStr "executor")) as [executor|] eqn:H3;
        [|discriminate].
      cbn [bind] in Hrun.
      destruct (subscript executor (JStr "graph_data")) as [g1|] eqn:H4;
        [|discriminate].
      cbn [bind] in Hrun.
      econstructor; eauto.
Qed.

Lemma descend_missing (g : json) (tasks : list (string * json))
    (segment : string) :
  subscript g (JStr "tasks") = Ok (JDict tasks) ->
  dict_get tasks segment = None ->
  descend g segment = Raise (KeyError (py_repr (JStr segment))).
Proof.
  intros H1 H2. unfold descend. rewrite H1. cbn [bind subscript].
  rewrite H2. reflexivity.
Qed.

Lemma sub_workgraph_body_workgraph (node : WorkGraphNode) (id : Z)
    (path : string) (executor g0 : json) :
  names_task node (hd "" (split "/" path)) "WORKGRAPH" ->
  py_get (task_executors node) (hd "" (split "/" path)) JNull = Ok executor ->
  subscript executor (JStr "graph_data") = Ok g0 ->
  sub_workgraph_body node id path
    = bind (for_each (tl (split "/" path)) descend g0)
        (sub_workgraph_content node id (split "/" path)).
Proof.
  intros (tasks & raw & ndata & H1 & H2 & H3 & H4) Hexec Hg0.
  unfold sub_workgraph_body.
  rewrite H1; cbn [bind]. rewrite H2; cbn [bind].
  rewrite H3; cbn [bind]. rewrite H4; cbn [bind].
  rewrite String.eqb_refl. unfold workgraph_branch.
  rewrite Hexec; cbn [bind]. rewrite Hg0; cbn [bind]. reflexivity.
Qed.

(** C2. GET /api/workgraph/{id}/{path} when the first segment names a task
    of node type WORKGRAPH (in any letter case) whose executor holds a
    graph: the handler goes down one nesting level per remaining segment,
    [graph_data = graph_data["tasks"][segment]["executor"]["graph_data"]],
    and answers with the short-JSON view of the graph it reaches (with
    [summary], [parent_workgraphs] and [processes_info] set on it); when a
    remaining segment is not among the tasks of the graph reached so far,
    the endpoint raises HTTP 404. *)
Theorem read_sub_workgraph_descends (id : Z) (path : string) (w w1 : world)
    (node : WorkGraphNode) (executor g0 : json) :
  load_node id w = (Ok node, w1) ->
  names_task node (hd "" (split "/" path)) "WORKGRAPH" ->
  py_get (task_executors node) (hd "" (split "/" path)) JNull = Ok executor ->
  subscript executor (JStr "graph_data") = Ok g0 ->
  (forall g : json,
     reaches g0 (tl (split "/" path)) g ->
     read_sub_workgraph id path w
       = (not_found id path
            (sub_workgraph_content node id (split "/" path) g), w1)
     /\ forall view : list (string * json),
          workgraph_to_short_json g = Ok (JDict view) ->
          read_sub_workgraph id path w
            = (Ok (JDict
                     (dict_set
                        (dict_set
                           (dict_set view "summary"
                              (JDict [("table", JList []);
                                      ("inputs", JDict []);
                                      ("outputs", JDict [])]))
                           "parent_workgraphs"
                           (JList (JList [process_label node; JInt id]
                                   :: map JStr (split "/" path))))
                        "processes_info" (JDict []))), w1))
  /\ (forall (before after : list string) (segment : string) (g : json)
        (tasks : list (string * json)),
        tl (split "/" path) = (before ++ segment :: after)%list ->
        reaches g0 before g ->
        subscript g (JStr "tasks") = Ok (JDict tasks) ->
        dict_get tasks segment = None ->
        read_sub_workgraph id path w
          = (Raise (HTTPException 404
                      ("Workgraph " ++ string_of_Z id ++ "/" ++ path
                       ++ " not found, " ++ py_repr (JStr segment))), w1)).
Proof.
  intros Hload Hnames Hexec Hg0.
  pose proof (@sub_workgraph_body_workgraph node id path executor g0
                Hnames Hexec Hg0) as Hbody.
  split.
  - intros g Hreach. apply reaches_for_each in Hreach.
    assert (Hrun : read_sub_workgraph id path w
              = (not_found id path
                   (sub_workgraph_content node id (split "/" path) g), w1)).
    { unfold read_sub_workgraph, try_except_KeyError, read_sub_workgraph_try,
        mbind, lift, raise.
      rewrite Hload, Hbody, Hreach. cbn [bind].
      destruct (sub_workgraph_content node id (split "/" path) g)
        as [v|[]]; reflexivity. }
    split; [exact Hrun|].
    intros view Hview. rewrite Hrun.
    unfold sub_workgraph_content. rewrite Hview. reflexivity.
  - intros before after segment g tasks Hsplit Hreach Htasks Hmissing.
    apply reaches_for_each in Hreach.
    unfold read_sub_workgraph, try_except_KeyError, read_sub_workgraph_try,
      mbind, lift, raise.
    rewrite Hload, Hbody, Hsplit, for_each_app, Hreach.
    cbn [bind for_each].
    rewrite (@descend_missing g tasks segment Htasks Hmissing). reflexivity.
Qed.

(** C7. GET /api/workgraph/{id}: when [workgraph_data_short] is a dict the
    answer is that dict with ["summary"] set to the node summary table,
    inputs and outputs, ["parent_workgraphs"] set to the reversal of
    [get_parent_workgraphs(id)] and ["processes_info"] set to the empty
    dict, every other key unchanged; when it is [None] the handler returns
    [None]; a [KeyError] raised in the [try] block becomes HTTP 404. *)
Theorem read_workgraph_outcome (id : Z) (w : world) :
  (forall (node : WorkGraphNode) (content : list (string * json))
      (table inputs outputs : json) (parents : list json)
      (w1 w2 w3 w4 w5 : world),
      load_node id w = (Ok node, w1) ->
      workgraph_data_short node = JDict content ->
      get_node_summary node w1 = (Ok table, w2) ->
      get_node_inputs id w2 = (Ok inputs, w3) ->
      get_node_outputs id w3 = (Ok outputs, w4) ->
      get_parent_workgraphs id w4 = (Ok parents, w5) ->
      exists answer : list (string * json),
        read_workgraph id w = (Ok (JDict answer), w5)
        /\ dict_get answer "summary"
           = Some (JDict [("table", table); ("inputs", inputs);
                          ("outputs", outputs)])
        /\ dict_get answer "parent_workgraphs" = Some (JList (rev parents))
        /\ dict_get answer "processes_info" = Some (JDict [])
        /\ forall k : string,
             k <> "summary" -> k <> "parent_workgraphs" ->
             k <> "processes_info" ->
             dict_get answer k = dict_get content k)
  /\ (forall (node : WorkGraphNode) (w1 : world),
        load_node id w = (Ok node, w1) ->
        workgraph_data_short node = JNull ->
        read_workgraph id w = (Ok JNull, w1))
  /\ (forall (shown : string) (w' : world),
        read_workgraph_try id w = (Raise (KeyError shown), w') ->
        read_workgraph id w
          = (Raise (HTTPException 404
                      ("Workgraph " ++ string_of_Z id ++ " not found, "
                       ++ shown)), w')).
Proof.
  split; [|split].
  - intros node content table inputs outputs parents w1 w2 w3 w4 w5
      Hload Hshort Hsum Hin Hout Hpar.
    eexists. split.
    + unfold read_workgraph, try_except_KeyError, read_workgraph_try, mbind,
        lift, ret.
      rewrite Hload, Hshort, Hsum, Hin, Hout, Hpar. reflexivity.
    + split; [|split; [|split]].
      * rewrite !dict_get_set_other by discriminate.
        apply dict_get_set_same.
      * rewrite dict_get_set_other by discriminate.
        apply dict_get_set_same.
      * apply dict_get_set_same.
      * intros k H1 H2 H3.
        rewrite !dict_get_set_other by congruence. reflexivity.
  - intros node w1 Hload Hshort.
    unfold read_workgraph, try_except_KeyError, read_workgraph_try, mbind,
      ret.
    rewrite Hload, Hshort. reflexivity.
  - intros shown w' Htry.
    unfold read_workgraph, try_except_KeyError, raise.
    rewrite Htry. reflexivity.
Qed.

End ReadingFacts.

Lemma read_sub_workgraph_descends_witness :
  @read_sub_workgraph Script.python _ Script.engine 1 "sub/inner" []
    = (Ok (JDict [("name", JStr "inner"); ("tasks", JDict []);
                  ("links", JList []);
                  ("summary", JDict [("table", JList []);
                                     ("inputs", JDict []);
                                     ("outputs", JDict [])]);
                  ("parent_workgraphs",
                   JList [JList [JStr "WorkGraph<demo>"; JInt 1];
                          JStr "sub"; JStr "inner"]);
                  ("processes_info", JDict [])]),
       ["load_node"])
  /\ @read_sub_workgraph Script.python _ Script.engine 1 "sub/absent" []
    = (Raise (HTTPException 404 "Workgraph 1/sub/absent not found, 'absent'"),
       ["load_node"]).
Proof.
  split.
  - refine (proj2 (proj1 (@read_sub_workgraph_descends Script.python _
                            Script.engine 1 "sub/inner" [] ["load_node"]
                            Script.node1
                            (JDict [("graph_data", Script.sub_graph)])
                            Script.sub_graph _ _ _ _)
                     Script.inner_graph _)
              [("name", JStr "inner"); ("tasks", JDict []);
               ("links", JList [])] _).
    + reflexivity.
    + exists (JDict [("sub", JStr "yaml:sub"); ("loop", JStr "yaml:loop");
                     ("add", JStr "yaml:add"); ("mul", JStr "yaml:mul")]),
        (JStr "yaml:sub"), (Script.task_of_type "WorkGraph").
      repeat split.
    + reflexivity.
    + reflexivity.
    + apply reaches_for_each. reflexivity.
    + reflexivity.
  - refine (proj2 (@read_sub_workgraph_descends Script.python _
                     Script.engine 1 "sub/absent" [] ["load_node"]
                     Script.node1
                     (JDict [("graph_data", Script.sub_graph)])
                     Script.sub_graph _ _ _ _)
              [] [] "absent" Script.sub_graph
              [("inner",
                JDict [("executor",
                        JDict [("graph_data", Script.inner_graph)])])]
              _ _ _ _).
    + reflexivity.
    + exists (JDict [("sub", JStr "yaml:sub"); ("loop", JStr "yaml:loop");
                     ("add", JStr "yaml:add"); ("mul", JStr "yaml:mul")]),
        (JStr "yaml:sub"), (Script.task_of_type "WorkGraph").
      repeat split.
    + reflexivity.
    + reflexivity.
    + reflexivity.
    + constructor.
    + reflexivity.
    + reflexivity.
Defined.

Lemma read_workgraph_outcome_witness :
  exists answer : list (string * json),
    @read_workgraph _ Script.engine 1 []
      = (Ok (JDict answer),
         ["load_node"; "get_node_summary"; "get_node_inputs";
          "get_node_outputs"; "get_parent_workgraphs"])
    /\ dict_get answer "parent_workgraphs"
       = Some (JList [JList [JStr "WorkGraph<outer>"; JInt 0];
                      JList [JStr "WorkGraph<demo>"; JInt 1]]).
Proof.
  destruct (proj1 (@read_workgraph_outcome _ Script.engine 1 [])
              Script.node1 [("name", JStr "demo")] (JList []) (JDict [])
              (JDict [])
              [JList [JStr "WorkGraph<demo>"; JInt 1];
               JList [JStr "WorkGraph<outer>"; JInt 0]]
              ["load_node"] ["load_node"; "get_node_summary"]
              ["load_node"; "get_node_summary"; "get_node_inputs"]
              ["load_node"; "get_node_summary"; "get_node_inputs";
               "get_node_outputs"]
              ["load_node"; "get_node_summary"; "get_node_inputs";
               "get_node_outputs"; "get_parent_workgraphs"]
              eq_refl eq_refl eq_refl eq_refl eq_refl eq_refl)
    as [answer [Hrun [_ [Hparents _]]]].
  exists answer. split; [exact Hrun|exact Hparents].
Defined.

(** ** Keys of a dict under assignment *)

Lemma dict_keys_set (d : list (string * json)) (k k' : string) (v : json) :
  In k (dict_keys (dict_set d k' v)) <-> k = k' \/ In k (dict_keys d).
Proof.
  unfold dict_keys. induction d as [|[k0 v0] d IH]; simpl.
  - intuition congruence.
  - destruct (String.eqb k0 k') eqn:E; simpl.
    + apply String.eqb_eq in E. subst k0. intuition congruence.
    + rewrite IH. intuition congruence.
Qed.


Lemma flat_map_filter {A B : Type} (keep : A -> bool) (f : A -> list B)
    (xs : list A) :
  flat_map (fun x => if keep x then f x else []) xs
    = flat_map f (filter keep xs).
Proof.
  induction xs as [|x xs IH]; simpl; [reflexivity|].
  destruct (keep x); simpl; rewrite IH; reflexivity.
Qed.


(** ** The expansion of a map task *)

Section MapFacts.
Context {py : Python} {world : Type} {eng : Engine world}.









End MapFacts.


(** ** Validation of the list queries *)

Lemma matches_alternatives_In (alternatives : list string) (s : string) :
  matches_alternatives alternatives s = true <-> In s alternatives.
Proof.
  unfold matches_alternatives. rewrite existsb_exists. split.
  - intros [x [Hin Heq]]. apply String.eqb_eq in Heq. subst x. exact Hin.
  - intros Hin. exists s. split; [exact Hin|apply String.eqb_refl].
Qed.

Lemma validate_accepts (fields : list string) (q : ListQuery)
    (p : ListParams) :
  validate fields q = Ok p ->
  p = mkParams (default (q_skip q) 0) (default (q_limit q) 15)
        (default (q_sortField q) "pk") (default (q_sortOrder q) "desc")
        (q_filterModel q)
  /\ 0 <= skip p /\ 0 < limit p <= 500
  /\ In (sortField p) fields /\ In (sortOrder p) sort_orders.
Proof.
  unfold validate.
  destruct (0 <=? default (q_skip q) 0) eqn:Hskip; [|discriminate].
  destruct ((0 <? default (q_limit q) 15)
            && (default (q_limit q) 15 <=? 500)) eqn:Hlimit; [|discriminate].
  destruct (matches_alternatives fields (default (q_sortField q) "pk"))
    eqn:Hfield; [|discriminate].
  destruct (matches_alternatives sort_orders (default (q_sortOrder q) "desc"))
    eqn:Horder; [|discriminate].
  cbn [app]. intros Hp. injection Hp as <-. cbn [skip limit sortField sortOrder].
  apply andb_true_iff in Hlimit. destruct Hlimit as [Hlo Hhi].
  apply matches_alternatives_In in Hfield, Horder.
  repeat split; try assumption; lia.
Qed.

Lemma validate_rejects (fields : list string) (q : ListQuery) :
  out_of_range fields q ->
  exists errors : list string,
    errors <> [] /\ validate fields q = Raise (RequestValidationError errors).
Proof.
  intros Hbad. unfold validate.
  destruct (0 <=? default (q_skip q) 0) eqn:Hskip.
  - destruct ((0 <? default (q_limit q) 15)
              && (default (q_limit q) 15 <=? 500)) eqn:Hlimit.
    + destruct (matches_alternatives fields (default (q_sortField q) "pk"))
        eqn:Hfield.
      * destruct (matches_alternatives sort_orders
                    (default (q_sortOrder q) "desc")) eqn:Horder.
        -- exfalso. apply andb_true_iff in Hlimit.
           destruct Hlimit as [Hlo Hhi].
           apply matches_alternatives_In in Hfield, Horder.
           destruct Hbad as [Hb|[Hb|[Hb|[Hb|Hb]]]]; try contradiction; lia.
        -- eexists. split; [|reflexivity]. discriminate.
      * eexists. split; [|reflexivity]. discriminate.
    + eexists. split; [|reflexivity]. discriminate.
  - eexists. split; [|reflexivity]. discriminate.
Qed.

Lemma datanode_column_known (s : string) :
  In s datanode_sort_fields ->
  exists col, str_dict_get datanode_col_map s = Some col.
Proof.
  intros Hin. simpl in Hin.
  repeat (destruct Hin as [<-|Hin]; [eexists; reflexivity|]). contradiction.
Qed.

Lemma workgraph_column_known (s : string) :
  In s workgraph_sort_fields ->
  exists col, str_dict_get workgraph_col_map s = Some col.
Proof.
  intros Hin. simpl in Hin.
  repeat (destruct Hin as [<-|Hin]; [eexists; reflexivity|]). contradiction.
Qed.

Section ListFacts.
Context {py : Python} {db : Storage} {utils : Utils}.

(** C10. Both list routes: a query with [skip < 0], [limit <= 0],
    [limit > 500], a [sortField] outside the route's enumerated set or a
    [sortOrder] other than asc and desc is rejected by validation and the
    handler is not called; a handler that is called gets [skip >= 0],
    [0 < limit <= 500], a [sortOrder] among asc and desc and a [sortField]
    that is a key of its column map; an omitted parameter takes the default
    0, 15, "pk", "desc". *)
Theorem list_query_validation (q : ListQuery) :
  (out_of_range datanode_sort_fields q ->
   exists errors, errors <> []
     /\ get_datanode_data q = Raise (RequestValidationError errors))
  /\ (out_of_range workgraph_sort_fields q ->
      exists errors, errors <> []
        /\ get_workgraph_data q = Raise (RequestValidationError errors))
  /\ (forall p, validate datanode_sort_fields q = Ok p ->
        get_datanode_data q = read_datanode_data p
        /\ 0 <= skip p /\ 0 < limit p <= 500
        /\ In (sortOrder p) ["asc"; "desc"]
        /\ exists col, str_dict_get datanode_col_map (sortField p) = Some col)
  /\ (forall p, validate workgraph_sort_fields q = Ok p ->
        get_workgraph_data q = read_workgraph_data p
        /\ 0 <= skip p /\ 0 < limit p <= 500
        /\ In (sortOrder p) ["asc"; "desc"]
        /\ exists col, str_dict_get workgraph_col_map (sortField p) = Some col)
  /\ (forall fields p, validate fields q = Ok p ->
        skip p = default (q_skip q) 0
        /\ limit p = default (q_limit q) 15
        /\ sortField p = default (q_sortField q) "pk"
        /\ sortOrder p = default (q_sortOrder q) "desc"
        /\ filterModel p = q_filterModel q)
  /\ validate datanode_sort_fields
       (mkQuery None None None None (q_filterModel q))
     = Ok (mkParams 0 15 "pk" "desc" (q_filterModel q))
  /\ validate workgraph_sort_fields
       (mkQuery None None None None (q_filterModel q))
     = Ok (mkParams 0 15 "pk" "desc" (q_filterModel q)).
Proof.
  split; [|split; [|split; [|split; [|split; [|split]]]]].
  - intros Hbad. destruct (validate_rejects Hbad) as [errors [Hne Hrej]].
    exists errors. split; [exact Hne|].
    unfold get_datanode_data. rewrite Hrej. reflexivity.
  - intros Hbad. destruct (validate_rejects Hbad) as [errors [Hne Hrej]].
    exists errors. split; [exact Hne|].
    unfold get_workgraph_data. rewrite Hrej. reflexivity.
  - intros p Hok.
    destruct (validate_accepts _ _ Hok) as [_ [Hskip [Hlimit [Hfield Horder]]]].
    split; [unfold get_datanode_data; rewrite Hok; reflexivity|].
    repeat split; try assumption; try lia.
    apply datanode_column_known, Hfield.
  - intros p Hok.
    destruct (validate_accepts _ _ Hok) as [_ [Hskip [Hlimit [Hfield Horder]]]].
    split; [unfold get_workgraph_data; rewrite Hok; reflexivity|].
    repeat split; try assumption; try lia.
    apply workgraph_column_known, Hfield.
  - intros fields p Hok.
    destruct (validate_accepts _ _ Hok) as [-> _]. repeat split.
  - reflexivity.
  - reflexivity.
Qed.

End ListFacts.

(** ** The pages of the list endpoints *)

Section PageFacts.
Context {py : Python} {db : Storage} {utils : Utils}.

Lemma comprehension_datanode_rows (rows : list entity) :
  comprehension datanode_row
    (map (fun e =>
            map (column e)
              ["id"; "uuid"; "ctime"; "node_type"; "label"; "description"])
       rows)
    = Ok (map datanode_record rows).
Proof.
  induction rows as [|e rows IH]; [reflexivity|].
  cbn [map comprehension] in IH |- *. unfold datanode_row at 1. cbn [bind].
  rewrite IH. reflexivity.
Qed.


Lemma matching_count (filters : json) (cls : orm_class)
    (col direction : string) :
  List.length (qb_sort col direction (filter (qb_matches filters) (stored cls)))
    = List.length (filter (qb_matches filters) (stored cls)).
Proof. apply Permutation_length, qb_sort_permutation. Qed.


End PageFacts.


Lemma list_query_validation_witness :
  (exists errors : list string,
     errors <> []
     /\ @get_datanode_data Script.python Script.storage Script.utils
          (mkQuery (Some 0) (Some 501) None None None)
        = Raise (RequestValidationError errors))
  /\ (exists errors : list string,
        errors <> []
        /\ @get_workgraph_data Script.python Script.storage Script.utils
             (mkQuery None None (Some "exit_status") None None)
           = Raise (RequestValidationError errors))
  /\ (0 <= 20 /\ 0 < 50 <= 500 /\ In "asc" ["asc"; "desc"]
      /\ exists col, str_dict_get workgraph_col_map "state" = Some col).
Proof.
  split; [|split].
  - apply (proj1 (@list_query_validation Script.python Script.storage
                    Script.utils
                    (mkQuery (Some 0) (Some 501) None None None))).
    right. right. left. reflexivity.
  - apply (proj1 (proj2 (@list_query_validation Script.python Script.storage
                           Script.utils
                           (mkQuery None None (Some "exit_status") None
                              None)))).
    right. right. right. left.
    intros Hin. simpl in Hin.
    repeat (destruct Hin as [Hin|Hin]; [discriminate|]). exact Hin.
  - apply (proj1 (proj2 (proj2 (proj2
             (@list_query_validation Script.python Script.storage
                Script.utils
                (mkQuery (Some 20) (Some 50) (Some "state") (Some "asc")
                   None)))))
             (mkParams 20 50 "state" "asc" None) eq_refl).
Defined.

(** ** The filter model of the data-node list *)

Section FilterFacts.
Context {py : Python}.

Lemma py_get_dict (d : list (string * json)) (k : string) (dflt : json) :
  py_get (JDict d) k dflt = Ok (item_get d k dflt).
Proof.
  unfold py_get, item_get. destruct (dict_get d k); reflexivity.
Qed.



Lemma translate_item_like (filters d : list (string * json))
    (col : string) :
  truthy (item_get d "value" JNull) = true ->
  item_get d "field" JNull = JStr col ->
  In col ["ctime"; "node_type"; "label"; "description"] ->
  In (item_get d "operator" (JStr "contains"))
     [JStr "contains"; JStr "equals"; JStr "is"] ->
  translate_item filters (JDict d)
    = Ok (dict_set filters col (like (item_get d "value" JNull))).
Proof.
  intros Htruthy Hfield Hcol Hop. unfold translate_item.
  rewrite !py_get_dict. cbn [bind]. rewrite Htruthy, Hfield. cbn [negb].
  assert (Hany : existsb (py_eq (item_get d "operator" (JStr "contains")))
                   [JStr "contains"; JStr "equals"; JStr "is"] = true).
  { destruct Hop as [<-|[<-|[<-|[]]]]; reflexivity. }
  destruct Hcol as [<-|[<-|[<-|[<-|[]]]]];
    cbv beta iota delta [in_str_dict str_dict_subscript];
    (replace (existsb (String.eqb _) (map fst field_map)) with true
       by reflexivity);
    cbn [negb bind];
    (match goal with
     | |- context [str_dict_get field_map ?c] =>
         replace (str_dict_get field_map c) with (Some c) by reflexivity
     end);
    cbn [bind];
    (match goal with
     | |- context [String.eqb ?c "id"] =>
         replace (String.eqb c "id") with false by reflexivity
     end);
    rewrite Hany; reflexivity.
Qed.


End FilterFacts.



(** * More of the backend *)

(** ** The segments of a path *)

Lemma split_nonempty (sep : ascii) (s : string) : split sep s <> [].
Proof.
  destruct s as [|c s]; simpl; [discriminate|].
  destruct (Ascii.eqb c sep); [discriminate|].
  destruct (split sep s); discriminate.
Qed.

Lemma concat_cons (sep first : string) (others : list string) (c : ascii) :
  String.concat sep (String c first :: others)
    = String c (String.concat sep (first :: others)).
Proof. destruct others; reflexivity. Qed.

(** X1. [path.split("/")]: the segments joined by "/" give the path back,
    there is at least one and none of them contains a "/". *)
Theorem path_segments_round_trip (path : string) :
  String.concat "/" (split "/" path) = path
  /\ split "/" path <> []
  /\ Forall (fun segment => ~ In "/"%char (list_ascii_of_string segment))
       (split "/" path).
Proof.
  split; [|split; [apply split_nonempty|]].
  - induction path as [|c path IH]; [reflexivity|].
    cbn [split]. destruct (Ascii.eqb c "/") eqn:E.
    + apply Ascii.eqb_eq in E. subst c.
      pose proof (split_nonempty "/" path) as Hne.
      destruct (split "/" path) as [|first others] eqn:Hs; [contradiction|].
      change (String.concat "/" ("" :: first :: others))
        with ("/" ++ String.concat "/" (first :: others)).
      rewrite IH. reflexivity.
    + pose proof (split_nonempty "/" path) as Hne.
      destruct (split "/" path) as [|first others] eqn:Hs; [contradiction|].
      rewrite concat_cons, IH. reflexivity.
  - induction path as [|c path IH].
    + constructor; [|constructor]. intros [].
    + cbn [split]. destruct (Ascii.eqb c "/") eqn:E.
      * constructor; [intros []|exact IH].
      * pose proof (split_nonempty "/" path) as Hne.
        destruct (split "/" path) as [|first others] eqn:Hs;
          [contradiction|].
        inversion IH as [|? ? Hfirst Hothers]; subst.
        constructor; [|exact Hothers].
        cbn [list_ascii_of_string In]. intros [Hc|Hin].
        -- subst c. discriminate.
        -- contradiction.
Qed.

(** ** What validation reports *)

(** X2. Validation of a list query either accepts it, and then no
    constraint is broken, or raises a [RequestValidationError] that names
    "skip" exactly when [skip < 0], "limit" exactly when [limit] is not in
    1..500, "sortField" and "sortOrder" exactly when they are not among
    the alternatives of their pattern; it raises nothing else. *)
Theorem validation_report (fields : list string) (q : ListQuery) :
  match validate fields q with
  | Ok p => ~ out_of_range fields q
  | Raise (RequestValidationError errors) =>
      errors <> []
      /\ (In "skip" errors <-> default (q_skip q) 0 < 0)
      /\ (In "limit" errors <->
          default (q_limit q) 15 <= 0 \/ 500 < default (q_limit q) 15)
      /\ (In "sortField" errors <->
          ~ In (default (q_sortField q) "pk") fields)
      /\ (In "sortOrder" errors <->
          ~ In (default (q_sortOrder q) "desc") sort_orders)
  | Raise _ => False
  end.
Proof.
  unfold validate, out_of_range.
  destruct (0 <=? default (q_skip q) 0) eqn:Hskip;
    destruct ((0 <? default (q_limit q) 15)
              && (default (q_limit q) 15 <=? 500)) eqn:Hlimit;
    destruct (matches_alternatives fields (default (q_sortField q) "pk"))
      eqn:Hfield;
    destruct (matches_alternatives sort_orders
                (default (q_sortOrder q) "desc")) eqn:Horder;
    cbn [app];
    try (apply Z.leb_le in Hskip); try (apply Z.leb_gt in Hskip);
    try (apply andb_true_iff in Hlimit; destruct Hlimit as [Hlo Hhi];
         apply Z.ltb_lt in Hlo; apply Z.leb_le in Hhi);
    try (apply andb_false_iff in Hlimit;
         rewrite Z.ltb_ge, Z.leb_gt in Hlimit);
    try (apply matches_alternatives_In in Hfield);
    try (apply matches_alternatives_In in Horder);
    try (assert (Hnf : ~ In (default (q_sortField q) "pk") fields)
           by (intros Hin; apply matches_alternatives_In in Hin;
               congruence));
    try (assert (Hno : ~ In (default (q_sortOrder q) "desc") sort_orders)
           by (intros Hin; apply matches_alternatives_In in Hin;
               congruence));
    try (intros [Hb|[Hb|[Hb|[Hb|Hb]]]]; try contradiction; lia);
    (split; [discriminate|]);
    repeat split; intros;
    repeat match goal with
           | Hin : In _ (_ :: _) |- _ =>
               destruct Hin as [Hin|Hin]; try discriminate Hin
           | Hin : In _ [] |- _ => destruct Hin
           end;
    try assumption; try lia; try contradiction;
    try (simpl; tauto).
Qed.

(** ** Pages *)



Lemma in_firstn {A : Type} (n : nat) (l : list A) (x : A) :
  In x (firstn n l) -> In x l.
Proof.
  revert l. induction n as [|n IH]; intros [|y l]; simpl; try tauto.
  intros [->|Hin]; [left; reflexivity|right; apply IH, Hin].
Qed.

Lemma in_skipn {A : Type} (n : nat) (l : list A) (x : A) :
  In x (skipn n l) -> In x l.
Proof.
  revert l. induction n as [|n IH]; intros [|y l]; simpl; try tauto.
  intros Hin. right. apply IH, Hin.
Qed.

Section MorePageFacts.
Context {py : Python} {db : Storage} {utils : Utils}.

Lemma read_datanode_data_page (p : ListParams) (filters : json)
    (col : string) :
  datanode_filters (filterModel p) = Ok filters ->
  str_dict_get datanode_col_map (sortField p) = Some col ->
  read_datanode_data p
    = Ok (JDict
            [("total",
              JInt (Z.of_nat
                      (List.length
                         (filter (qb_matches filters) (stored Data)))));
             ("data",
              JList (map datanode_record
                       (page_entities Data filters col (sortOrder p)
                          (skip p) (limit p))))]).
Proof.
  intros Hfilters Hcol.
  unfold read_datanode_data. rewrite Hfilters. cbn [bind].
  unfold str_dict_subscript. rewrite Hcol. cbn [bind].
  unfold qb_all, qb_count, qb_selected, qb_ordered, qb_matching.
  cbn [qb_append qb_order_by qb_set_offset qb_set_limit qb_cls qb_filters
       qb_project qb_order qb_offset qb_limit].
  rewrite matching_count.
  fold (page_entities Data filters col (sortOrder p) (skip p) (limit p)).
  rewrite comprehension_datanode_rows. reflexivity.
Qed.




(** X5. GET /api/datanode-data: every row of ['data'] is the record of a
    stored data node that the translated filters select. *)
Theorem page_rows_selected (p : ListParams) (filters : json) (col : string) :
  datanode_filters (filterModel p) = Ok filters ->
  str_dict_get datanode_col_map (sortField p) = Some col ->
  exists (total : Z) (data : list json),
    read_datanode_data p
      = Ok (JDict [("total", JInt total); ("data", JList data)])
    /\ Forall (fun record =>
                 exists e, In e (stored Data)
                           /\ qb_matches filters e = true
                           /\ record = datanode_record e) data.
Proof.
  intros Hfilters Hcol.
  do 2 eexists. split; [apply (read_datanode_data_page p Hfilters Hcol)|].
  apply Forall_forall. intros record Hin.
  apply in_map_iff in Hin. destruct Hin as [e [<- Hin]].
  exists e. unfold page_entities in Hin.
  apply in_firstn, in_skipn in Hin.
  apply (Permutation_in _ (qb_sort_permutation col (sortOrder p) _)) in Hin.
  apply filter_In in Hin. destruct Hin as [Hstored Hmatch].
  repeat split; assumption.
Qed.

Lemma comprehension_workgraph_stateless (rows : list entity) :
  (exists e, In e rows /\ process_state e = None) ->
  comprehension workgraph_row
    (map (fun e =>
            map (column e)
              ["id"; "uuid"; "ctime"; "attributes.process_label";
               "attributes.process_state"; "attributes.process_status";
               "attributes.exit_status"; "attributes.exit_message";
               "label"; "description"])
       rows)
    = Raise (AttributeError "object has no attribute 'title'").
Proof.
  induction rows as [|e rows IH]; intros [bad [Hin Hnone]];
    [destruct Hin|].
  cbn [map comprehension] in IH |- *. unfold workgraph_row at 1.
  destruct (process_state e) as [s|] eqn:Hstate.
  - pose proof Hstate as Hstr. unfold process_state in Hstr.
    destruct (column e "attributes.process_state") as [| | | |s'| |]
      eqn:Hcol; try discriminate.
    cbn [py_title bind]. rewrite IH; [reflexivity|].
    destruct Hin as [Heq|Hin]; [subst bad; congruence|].
    exists bad. split; assumption.
  - unfold process_state in Hstate.
    destruct (column e "attributes.process_state") as [| | | |s'| |]
      eqn:Hcol; try discriminate; reflexivity.
Qed.

(** X6. GET /api/workgraph-data: when one workgraph node on the requested
    page has a process state that is not a string, [state.title()] raises
    and the whole request fails with that [AttributeError]; no total and no
    other row is returned. *)
Theorem workgraph_page_without_state (p : ListParams) (filters : json)
    (col : string) (e : entity) :
  workgraph_filters (filterModel p) = Ok filters ->
  str_dict_get workgraph_col_map (sortField p) = Some col ->
  In e (page_entities WorkGraphNodeClass filters col (sortOrder p)
          (skip p) (limit p)) ->
  process_state e = None ->
  read_workgraph_data p
    = Raise (AttributeError "object has no attribute 'title'").
Proof.
  intros Hfilters Hcol Hin Hnone.
  unfold read_workgraph_data. rewrite Hfilters. cbn [bind].
  unfold str_dict_subscript. rewrite Hcol. cbn [bind].
  unfold qb_all, qb_count, qb_selected, qb_ordered, qb_matching.
  cbn [qb_append qb_order_by qb_set_offset qb_set_limit qb_cls qb_filters
       qb_project qb_order qb_offset qb_limit].
  fold (page_entities WorkGraphNodeClass filters col (sortOrder p)
          (skip p) (limit p)).
  rewrite comprehension_workgraph_stateless; [reflexivity|].
  exists e. split; assumption.
Qed.

End MorePageFacts.



Lemma page_rows_selected_witness :
  exists (total : Z) (data : list json),
    @read_datanode_data Script.python Script.storage Script.utils
        (mkParams 0 5 "pk" "desc" (Some "label-and-pk"))
      = Ok (JDict [("total", JInt total); ("data", JList data)])
    /\ Forall (fun record =>
                 exists e,
                   In e (stored (Storage := Script.storage) Data)
                   /\ Script.selects
                        (JDict [("label", JDict [("like", JStr "%relax%")]);
                                ("id", JInt 12)]) e = true
                   /\ record
                      = @datanode_record Script.storage Script.utils e)
         data.
Proof.
  apply (@page_rows_selected Script.python Script.storage Script.utils
           (mkParams 0 5 "pk" "desc" (Some "label-and-pk"))
           (JDict [("label", JDict [("like", JStr "%relax%")]);
                   ("id", JInt 12)]) "id"); reflexivity.
Defined.

Lemma workgraph_page_without_state_witness :
  @read_workgraph_data Script.python ScriptMore.storage_with_draft
      Script.utils (mkParams 0 15 "pk" "desc" None)
    = Raise (AttributeError "object has no attribute 'title'").
Proof.
  apply (@workgraph_page_without_state Script.python
           ScriptMore.storage_with_draft Script.utils
           (mkParams 0 15 "pk" "desc" None) (JDict []) "id"
           ScriptMore.draft_row); try reflexivity.
  vm_compute. left. reflexivity.
Defined.

(** ** The filters that reach the QueryBuilder *)

Ltac crack_string :=
  lazymatch goal with
  | |- context [match ?s with EmptyString => _ | String _ _ => _ end] =>
      is_var s;
      destruct s as [|[[] [] [] [] [] [] [] []] ?]; cbv beta iota;
      try discriminate; try crack_string
  | _ => idtac
  end.

Lemma forallb_dict_set (P : string * json -> bool)
    (d : list (string * json)) (k : string) (v : json) :
  forallb P d = true -> P (k, v) = true -> forallb P (dict_set d k v) = true.
Proof.
  intros Hall Hnew. induction d as [|[k' v'] d IH]; simpl.
  - rewrite Hnew. reflexivity.
  - simpl in Hall. apply andb_true_iff in Hall. destruct Hall as [Hhd Htl].
    destruct (String.eqb k' k) eqn:E; simpl.
    + apply String.eqb_eq in E. subst k'. rewrite Hnew, Htl. reflexivity.
    + rewrite Hhd, IH by exact Htl. reflexivity.
Qed.

Lemma field_map_columns (field col : string) :
  str_dict_get field_map field = Some col ->
  col = "id"
  \/ existsb (String.eqb col) ["ctime"; "node_type"; "label"; "description"]
     = true
     /\ String.eqb col "id" = false.
Proof.
  unfold field_map. cbn [str_dict_get].
  repeat match goal with
         | |- context [String.eqb ?a field] =>
             destruct (String.eqb a field)
         end;
    intros Hcol; try discriminate; injection Hcol as <-;
    (left; reflexivity) || (right; split; reflexivity).
Qed.

(** [try: filters[col] = int(value) except ValueError: continue] either
    leaves the filters or sets the integer. *)
Lemma int_or_skip (r : result Z) (filters filters' : list (string * json))
    (col : string) :
  match r with
  | Ok n => Ok (dict_set filters col (JInt n))
  | Raise (PyError "ValueError" _) => Ok filters
  | Raise e => Raise e
  end = Ok filters' ->
  filters' = filters
  \/ exists n, r = Ok n /\ filters' = dict_set filters col (JInt n).
Proof.
  destruct r as [n|[| | |cls msg]]; try discriminate.
  - intros H. injection H as <-. right. eauto.
  - crack_string. intros H. injection H as <-. left. reflexivity.
Qed.

Section FilterShape.
Context {py : Python}.

Lemma translate_item_shape (filters filters' : list (string * json))
    (item : json) :
  forallb column_condition filters = true ->
  translate_item filters item = Ok filters' ->
  forallb column_condition filters' = true.
Proof.
  intros Hall. unfold translate_item.
  destruct (py_get item "field" JNull) as [field|]; [|discriminate].
  cbn [bind].
  destruct (py_get item "value" JNull) as [value|]; [|discriminate].
  cbn [bind].
  destruct (py_get item "operator" (JStr "contains")) as [operator|];
    [|discriminate].
  cbn [bind].
  destruct (truthy value); cbn [negb];
    [|intros H; injection H as <-; exact Hall].
  destruct (in_str_dict field field_map) as [[|]|] eqn:Hknown;
    cbn [bind negb]; try discriminate;
    [|intros H; injection H as <-; exact Hall].
  unfold str_dict_subscript.
  destruct field as [| | | |s| |]; try discriminate.
  destruct (str_dict_get field_map s) as [col|] eqn:Hcol; [|discriminate].
  cbn [bind].
  destruct (field_map_columns _ Hcol) as [->|[Htext Hnot_id]].
  - replace (String.eqb "id" "id") with true by reflexivity.
    intros H. apply int_or_skip in H.
    destruct H as [->|[n [_ ->]]]; [exact Hall|].
    apply forallb_dict_set; [exact Hall|reflexivity].
  - rewrite Hnot_id.
    destruct (existsb (py_eq operator)
                [JStr "contains"; JStr "equals"; JStr "is"]).
    + intros H; injection H as <-.
      apply forallb_dict_set; [exact Hall|].
      unfold column_condition. cbn [snd fst like is_like].
      rewrite Htext. reflexivity.
    + intros H; injection H as <-. exact Hall.
Qed.

Lemma translate_items_shape (items : list json)
    (filters filters' : list (string * json)) :
  forallb column_condition filters = true ->
  for_each items translate_item filters = Ok filters' ->
  forallb column_condition filters' = true.
Proof.
  revert filters. induction items as [|item items IH]; intros filters Hall.
  - intros H. injection H as <-. exact Hall.
  - cbn [for_each].
    destruct (translate_item filters item) as [filters1|] eqn:Hitem;
      [|discriminate].
    cbn [bind]. apply IH. exact (translate_item_shape _ _ Hall Hitem).
Qed.

Lemma quick_filter_block_shape (blocks blocks' : list json) (value : json) :
  forallb quick_block blocks = true ->
  quick_filter_block blocks value = Ok blocks' ->
  forallb quick_block blocks' = true
  /\ List.length blocks' = S (List.length blocks).
Proof.
  intros Hall. unfold quick_filter_block.
  destruct value as [| | | |s| |]; try discriminate. cbn [bind].
  destruct (str_isdigit s); cbn [bind].
  - destruct (py_int (JStr s)) as [n|]; [|discriminate]. cbn [bind].
    intros H. injection H as <-. split.
    + rewrite forallb_app, Hall. reflexivity.
    + rewrite length_app. cbn [List.length]. lia.
  - intros H. injection H as <-. split.
    + rewrite forallb_app, Hall. reflexivity.
    + rewrite length_app. cbn [List.length]. lia.
Qed.

Lemma quick_filter_blocks_shape (values blocks blocks' : list json) :
  forallb quick_block blocks = true ->
  for_each values quick_filter_block blocks = Ok blocks' ->
  forallb quick_block blocks' = true
  /\ List.length blocks' = (List.length blocks + List.length values)%nat.
Proof.
  revert blocks. induction values as [|value values IH]; intros blocks Hall.
  - intros H. injection H as <-. split; [exact Hall|cbn; lia].
  - cbn [for_each].
    destruct (quick_filter_block blocks value) as [blocks1|] eqn:Hblock;
      [|discriminate].
    cbn [bind]. intros Hrest.
    destruct (quick_filter_block_shape _ _ Hall Hblock) as [Hall1 Hlen1].
    destruct (IH _ Hall1 Hrest) as [Hall' Hlen'].
    split; [exact Hall'|]. rewrite Hlen', Hlen1. cbn [List.length]. lia.
Qed.

(** X7. GET /api/datanode-data: whatever the filter model, when the
    translation succeeds the filters handed to the QueryBuilder are either
    a dict whose entries are an integer on "id" or a [like] on ctime,
    node_type, label or description, or an "and" over one "or"-block per
    quick-filter value (id or empty dict, then [like] on node_type, label
    and description), headed by the dict of the items when it is not
    empty.  No other column and no other operator can be asked for. *)
Theorem datanode_filters_shape (fm : option string) (f : json) :
  datanode_filters fm = Ok f -> built_filters f = true.
Proof.
  unfold datanode_filters.
  destruct fm as [text|]; [|intros H; injection H as <-; reflexivity].
  destruct (String.eqb text "");
    [intros H; injection H as <-; reflexivity|].
  destruct (json_loads text) as [decoded|]; [|discriminate].
  destruct (py_get decoded "items" (JList [])) as [items|]; [|discriminate].
  cbn [bind].
  destruct (py_iter items) as [item_list|]; [|discriminate]. cbn [bind].
  destruct (for_each item_list translate_item []) as [filters|] eqn:Hitems;
    [|discriminate].
  cbn [bind].
  pose proof (translate_items_shape item_list [] eq_refl Hitems) as Hshape.
  destruct (py_get decoded "quickFilterValues" (JList [])) as [qf|];
    [|discriminate].
  cbn [bind].
  assert (Hplain : built_filters (JDict filters) = true).
  { unfold built_filters.
    destruct filters as [|[k v] [|]]; try exact Hshape;
      destruct v; try exact Hshape.
    cbn [forallb column_condition snd fst is_like andb] in Hshape.
    discriminate Hshape. }
  destruct (truthy qf); [|intros H; injection H as <-; exact Hplain].
  destruct (py_iter qf) as [values|]; [|discriminate]. cbn [bind].
  destruct (for_each values quick_filter_block []) as [blocks|] eqn:Hblocks;
    [|discriminate].
  cbn [bind].
  destruct (quick_filter_blocks_shape values [] eq_refl Hblocks)
    as [Hquick _].
  destruct (truthy (JDict filters)) eqn:Htruthy;
    intros H; injection H as <-; unfold built_filters;
    replace (String.eqb "and" "and") with true by reflexivity;
    cbn [andb].
  - apply orb_true_iff. right.
    cbn [item_filters]. rewrite Hshape, Htruthy, Hquick. reflexivity.
  - rewrite Hquick. reflexivity.
Qed.

Lemma translate_item_pk (filters d : list (string * json)) (n : Z) :
  truthy (item_get d "value" JNull) = true ->
  item_get d "field" JNull = JStr "pk" ->
  py_int (item_get d "value" JNull) = Ok n ->
  translate_item filters (JDict d) = Ok (dict_set filters "id" (JInt n)).
Proof.
  intros Htruthy Hfield Hint. unfold translate_item.
  rewrite !py_get_dict. cbn [bind]. rewrite Htruthy, Hfield, Hint.
  reflexivity.
Qed.

(** X8. The loop over the items keeps one filter per column: an item on a
    text column (truthy value, operator contains, equals or is) or a pk
    item with an integer value, coming after other items, replaces what
    they had set on its column and leaves their filters on the other
    columns as they were. *)
Theorem later_item_replaces (items : list json)
    (filters d : list (string * json)) :
  for_each items translate_item [] = Ok filters ->
  truthy (item_get d "value" JNull) = true ->
  (forall col : string,
     item_get d "field" JNull = JStr col ->
     In col ["ctime"; "node_type"; "label"; "description"] ->
     In (item_get d "operator" (JStr "contains"))
        [JStr "contains"; JStr "equals"; JStr "is"] ->
     exists filters' : list (string * json),
       for_each (items ++ [JDict d]) translate_item [] = Ok filters'
       /\ dict_get filters' col = Some (like (item_get d "value" JNull))
       /\ forall other, other <> col ->
            dict_get filters' other = dict_get filters other)
  /\ (forall n : Z,
        item_get d "field" JNull = JStr "pk" ->
        py_int (item_get d "value" JNull) = Ok n ->
        exists filters' : list (string * json),
          for_each (items ++ [JDict d]) translate_item [] = Ok filters'
          /\ dict_get filters' "id" = Some (JInt n)
          /\ forall other, other <> "id" ->
               dict_get filters' other = dict_get filters other).
Proof.
  intros Hitems Htruthy. split.
  - intros col Hfield Hcol Hop.
    exists (dict_set filters col (like (item_get d "value" JNull))).
    split; [|split].
    + rewrite for_each_app, Hitems. cbn [bind for_each].
      rewrite (translate_item_like filters d Htruthy Hfield Hcol Hop).
      reflexivity.
    + apply dict_get_set_same.
    + intros other Hne. apply dict_get_set_other. congruence.
  - intros n Hfield Hint.
    exists (dict_set filters "id" (JInt n)). split; [|split].
    + rewrite for_each_app, Hitems. cbn [bind for_each].
      rewrite (translate_item_pk filters d Htruthy Hfield Hint).
      reflexivity.
    + apply dict_get_set_same.
    + intros other Hne. apply dict_get_set_other. congruence.
Qed.

End FilterShape.

Lemma datanode_filters_shape_witness :
  built_filters
    (JDict [("label", JDict [("like", JStr "%relax%")]); ("id", JInt 12)])
  = true.
Proof.
  apply (@datanode_filters_shape Script.python (Some "label-and-pk")).
  reflexivity.
Defined.

Lemma later_item_replaces_witness :
  exists filters' : list (string * json),
    for_each
      ([JDict [("field", JStr "label"); ("value", JStr "relax")];
        JDict [("field", JStr "pk"); ("value", JStr "12")]]
       ++ [JDict [("field", JStr "label"); ("operator", JStr "is");
                  ("value", JStr "bands")]])
      (@translate_item Script.python) [] = Ok filters'
    /\ dict_get filters' "label"
       = Some (JDict [("like", JStr "%bands%")])
    /\ forall other, other <> "label" ->
         dict_get filters' other
         = dict_get [("label", JDict [("like", JStr "%relax%")]);
                     ("id", JInt 12)] other.
Proof.
  apply (proj1 (@later_item_replaces Script.python
                  [JDict [("field", JStr "label"); ("value", JStr "relax")];
                   JDict [("field", JStr "pk"); ("value", JStr "12")]]
                  [("label", JDict [("like", JStr "%relax%")]);
                   ("id", JInt 12)]
                  [("field", JStr "label"); ("operator", JStr "is");
                   ("value", JStr "bands")]
                  eq_refl eq_refl) "label").
  - reflexivity.
  - right. right. left. reflexivity.
  - right. right. left. reflexivity.
Defined.

(** ** Paths that are not resolved *)

Section MoreReadingFacts.
Context {py : Python} {world : Type} {eng : Engine world}
  {back : Backend world}.

(** X9. A first segment that names a task whose node type is neither
    WORKGRAPH nor MAP: GET /api/workgraph/{id}/{path} ends in an uncaught
    [UnboundLocalError], not in HTTP 404, and so does
    GET /api/task/{id}/{path} as soon as the path has a second segment. *)
Theorem other_node_type_unbound (id : Z) (path first : string)
    (others : list string) (w w1 : world) (node : WorkGraphNode)
    (kind : string) :
  load_node id w = (Ok node, w1) ->
  split "/" path = first :: others ->
  names_task node first kind ->
  kind <> "WORKGRAPH" -> kind <> "MAP" ->
  read_sub_workgraph id path w
    = (Raise (UnboundLocalError "cannot access local variable 'graph_data'"),
       w1)
  /\ (others <> [] ->
      (exists d, task_executors node = JDict d) ->
      read_task id path w
        = (Raise (UnboundLocalError "cannot access local variable 'content'"),
           w1)).
Proof.
  intros Hload Hsplit (tasks & raw & ndata & H1 & H2 & H3 & H4) Hwg Hmap.
  apply String.eqb_neq in Hwg, Hmap. split.
  - unfold read_sub_workgraph, try_except_KeyError, read_sub_workgraph_try,
      mbind, lift.
    rewrite Hload. unfold sub_workgraph_body. rewrite Hsplit. cbn [hd].
    rewrite H1; cbn [bind]. rewrite H2; cbn [bind].
    rewrite H3; cbn [bind]. rewrite H4; cbn [bind].
    rewrite Hwg, Hmap. reflexivity.
  - intros Hothers [d Hd].
    destruct others as [|second rest]; [contradiction|].
    unfold read_task, try_except_KeyError, read_task_try, mbind, lift.
    rewrite Hload. unfold task_body. rewrite Hsplit.
    rewrite H1; cbn [bind]. rewrite H2; cbn [bind].
    rewrite H3; cbn [bind]. rewrite Hd, py_get_dict. cbn [bind].
    rewrite H4; cbn [bind]. rewrite Hwg, Hmap. reflexivity.
Qed.

Lemma map_branch_first_only (node : WorkGraphNode) (segments : list string) :
  map_branch node segments
    = bind (map_branch node [hd "" segments])
        (fun g => setitem g "name" (JStr (last segments ""))).
Proof.
  unfold map_branch. cbn [hd].
  destruct (py_get (task_map_info node) (hd "" segments) JNull)
    as [map_info|]; [|reflexivity].
  cbn [bind].
  destruct (subscript map_info (JStr "children")) as [children|];
    [|reflexivity].
  cbn [bind].
  destruct (py_iter children) as [child_list|]; [|reflexivity]. cbn [bind].
  destruct (for_each child_list (copy_child node map_info) [])
    as [tasks|]; [|reflexivity].
  cbn [bind].
  destruct (subscript map_info (JStr "links")) as [links|]; [|reflexivity].
  cbn [bind].
  destruct (py_iter links) as [link_list|]; [|reflexivity]. cbn [bind].
  destruct (for_each link_list (copy_link map_info) []) as [out|];
    reflexivity.
Qed.

(** X10. Under a map task the segments after the first are not resolved:
    for any path whose first segment names a MAP task,
    GET /api/workgraph/{id}/{path} shows the expansion that the first
    segment alone gives, renamed to the last segment of the path. *)
Theorem map_ignores_deeper_segments (id : Z) (path first : string)
    (others : list string) (w w1 : world) (node : WorkGraphNode) :
  load_node id w = (Ok node, w1) ->
  split "/" path = first :: others ->
  names_task node first "MAP" ->
  read_sub_workgraph id path w
    = (not_found id path
         (bind (map_branch node [first]) (fun g =>
          bind (setitem g "name" (JStr (last (first :: others) "")))
            (sub_workgraph_content node id (first :: others)))), w1).
Proof.
  intros Hload Hsplit (tasks & raw & ndata & H1 & H2 & H3 & H4).
  unfold read_sub_workgraph, try_except_KeyError, read_sub_workgraph_try,
    mbind, lift, raise.
  rewrite Hload. unfold sub_workgraph_body. rewrite Hsplit. cbn [hd].
  rewrite H1; cbn [bind]. rewrite H2; cbn [bind].
  rewrite H3; cbn [bind]. rewrite H4; cbn [bind].
  replace (String.eqb "MAP" "WORKGRAPH") with false by reflexivity.
  rewrite String.eqb_refl.
  rewrite (map_branch_first_only node (first :: others)). cbn [hd].
  destruct (map_branch node [first]) as [g|e]; cbn [bind].
  - destruct (setitem g "name" (JStr (last (first :: others) "")))
      as [g'|e]; cbn [bind not_found].
    + destruct (sub_workgraph_content node id (first :: others) g')
        as [v|[]]; reflexivity.
    + destruct e; reflexivity.
  - destruct e; reflexivity.
Qed.

End MoreReadingFacts.

Lemma other_node_type_unbound_witness :
  @read_sub_workgraph Script.python _ Script.engine 1 "add/x" []
    = (Raise (UnboundLocalError "cannot access local variable 'graph_data'"),
       ["load_node"])
  /\ @read_task Script.python _ Script.engine ScriptMore.backend 1 "add/x" []
     = (Raise (UnboundLocalError "cannot access local variable 'content'"),
        ["load_node"]).
Proof.
  assert (Hnames : @names_task Script.python _ Script.engine Script.node1
                     "add" "NORMAL").
  { exists (JDict [("sub", JStr "yaml:sub"); ("loop", JStr "yaml:loop");
                   ("add", JStr "yaml:add"); ("mul", JStr "yaml:mul")]),
      (JStr "yaml:add"), (Script.task_of_type "Normal").
    repeat split. }
  destruct (@other_node_type_unbound Script.python _ Script.engine
              ScriptMore.backend 1 "add/x" "add" ["x"] [] ["load_node"]
              Script.node1 "NORMAL" eq_refl eq_refl Hnames)
    as [Hgraph Htask]; try discriminate.
  split; [exact Hgraph|].
  apply Htask; [discriminate|].
  exists [("sub", JDict [("graph_data", Script.sub_graph)])]. reflexivity.
Defined.

Lemma map_ignores_deeper_segments_witness :
  @read_sub_workgraph Script.python _ Script.engine 1 "loop/a_add/deeper" []
    = (not_found 1 "loop/a_add/deeper"
         (bind (@map_branch Script.python _ Script.engine Script.node1
                  ["loop"]) (fun g =>
          bind (setitem g "name" (JStr "deeper"))
            (sub_workgraph_content (eng := Script.engine) Script.node1 1
               ["loop"; "a_add"; "deeper"]))), ["load_node"]).
Proof.
  apply (@map_ignores_deeper_segments Script.python _ Script.engine
           1 "loop/a_add/deeper" "loop" ["a_add"; "deeper"] []
           ["load_node"] Script.node1 eq_refl eq_refl).
  exists (JDict [("sub", JStr "yaml:sub"); ("loop", JStr "yaml:loop");
                 ("add", JStr "yaml:add"); ("mul", JStr "yaml:mul")]),
    (JStr "yaml:loop"), (Script.task_of_type "Map").
  repeat split.
Defined.

(** ** The task behind a path *)

Section TaskFacts.
Context {py : Python} {world : Type} {eng : Engine world}
  {back : Backend world}.



Lemma match_prefix_none (node : WorkGraphNode) (child : json)
    (second : string) (prefixes : list json) :
  (forall prefix, In prefix prefixes ->
     map_task_name prefix child <> second) ->
  match_prefix node child second prefixes = Ok None.
Proof.
  induction prefixes as [|prefix prefixes IH]; intros Hnone; [reflexivity|].
  cbn [match_prefix].
  pose proof (Hnone prefix (or_introl eq_refl)) as Hne.
  apply String.eqb_neq in Hne. rewrite Hne.
  apply IH. intros p Hp. apply Hnone. right. exact Hp.
Qed.

Lemma match_prefix_some (node : WorkGraphNode) (child : json)
    (second : string) (prefixes : list json) :
  (exists prefix, In prefix prefixes
                  /\ map_task_name prefix child = second) ->
  match_prefix node child second prefixes
    = bind (child_data node child) (fun ndata =>
      bind (py_get_key (task_executors node) child) (fun executor =>
      bind (setitem ndata "name" (JStr second)) (fun ndata =>
      bind (setitem ndata "executor" (executor_or_empty executor))
        (fun ndata => Ok (Some ndata))))).
Proof.
  induction prefixes as [|prefix prefixes IH]; intros [p [Hin Hname]];
    [destruct Hin|].
  cbn [match_prefix].
  destruct (String.eqb (map_task_name prefix child) second) eqn:E.
  - apply String.eqb_eq in E. rewrite E. reflexivity.
  - apply IH. destruct Hin as [->|Hin].
    + apply String.eqb_neq in E. contradiction.
    + exists p. split; assumption.
Qed.

Lemma match_children_none (node : WorkGraphNode) (map_info : json)
    (second : string) (prefixes children : list json) (ndata : json) :
  subscript map_info (JStr "prefix") = Ok (JList prefixes) ->
  (forall child prefix, In child children -> In prefix prefixes ->
     map_task_name prefix child <> second) ->
  for_each children (match_child node map_info second) ndata = Ok ndata.
Proof.
  intros Hprefix. induction children as [|child children IH];
    intros Hnone; [reflexivity|].
  cbn [for_each]. unfold match_child at 1.
  rewrite Hprefix. cbn [bind py_iter].
  rewrite match_prefix_none
    by (intros p Hp; apply Hnone; [left; reflexivity|exact Hp]).
  cbn [bind]. apply IH.
  intros c p Hc Hp. apply Hnone; [right; exact Hc|exact Hp].
Qed.

(** X12. GET /api/task/{id}/{path} under a MAP task, with [second] the
    second segment.  When no prefix and child give the name [second], no
    HTTP 404 is raised: the answer is the short view of the map task
    itself.  When exactly one child gives that name with some prefix, the
    answer is the short view of that child's task data with ["name"] set
    to [second] and ["executor"] set to the child's executor, or to the
    empty dict when it has none. *)
Theorem read_task_in_map (id : Z) (path first second : string)
    (rest : list string) (w w1 : world) (node : WorkGraphNode)
    (tasks raw ndata map_info : json) (executors : list (string * json))
    (children prefixes : list json) :
  load_node id w = (Ok node, w1) ->
  split "/" path = first :: second :: rest ->
  subscript (workgraph_data node) (JStr "tasks") = Ok tasks ->
  subscript tasks (JStr first) = Ok raw ->
  deserialize_unsafe raw = Ok ndata ->
  node_type_upper ndata = Ok "MAP" ->
  task_executors node = JDict executors ->
  py_get (task_map_info node) first JNull = Ok map_info ->
  subscript map_info (JStr "children") = Ok (JList children) ->
  subscript map_info (JStr "prefix") = Ok (JList prefixes) ->
  ((forall child prefix, In child children -> In prefix prefixes ->
      map_task_name prefix child <> second) ->
   read_task id path w
     = (not_found id path (node_to_short_json (JInt id) ndata), w1))
  /\ (forall (before after : list json) (child : string)
        (data : list (string * json)),
        children = (before ++ JStr child :: after)%list ->
        (forall other prefix, In other (before ++ after) ->
           In prefix prefixes -> map_task_name prefix other <> second) ->
        (exists prefix, In prefix prefixes
                        /\ map_task_name prefix (JStr child) = second) ->
        child_data node (JStr child) = Ok (JDict data) ->
        read_task id path w
          = (not_found id path
               (node_to_short_json (JInt id)
                  (JDict
                     (dict_set (dict_set data "name" (JStr second))
                        "executor"
                        (executor_or_empty
                           (item_get executors child JNull))))), w1)).
Proof.
  intros Hload Hsplit H1 H2 H3 H4 Hexecs Hinfo Hchildren Hprefix.
  assert (Hbody : task_body node id path
            = bind (for_each children (match_child node map_info second)
                      ndata)
                (node_to_short_json (JInt id))).
  { unfold task_body. rewrite Hsplit.
    rewrite H1; cbn [bind]. rewrite H2; cbn [bind].
    rewrite H3; cbn [bind]. rewrite Hexecs, py_get_dict; cbn [bind].
    rewrite H4; cbn [bind].
    replace (String.eqb "MAP" "WORKGRAPH") with false by reflexivity.
    rewrite String.eqb_refl. unfold task_in_map.
    rewrite Hinfo; cbn [bind]. rewrite Hchildren; cbn [bind py_iter].
    reflexivity. }
  assert (Hrun : forall r,
            for_each children (match_child node map_info second) ndata
              = Ok r ->
            read_task id path w
              = (not_found id path (node_to_short_json (JInt id) r), w1)).
  { intros r Hr.
    unfold read_task, try_except_KeyError, read_task_try, mbind, lift,
      raise.
    rewrite Hload, Hbody, Hr. cbn [bind].
    destruct (node_to_short_json (JInt id) r) as [v|[]]; reflexivity. }
  split.
  - intros Hnone. apply Hrun.
    apply (@match_children_none node map_info second prefixes children
             ndata Hprefix Hnone).
  - intros before after child data -> Hothers Hmatch Hdata.
    apply Hrun. rewrite for_each_app.
    rewrite (@match_children_none node map_info second prefixes before
               ndata Hprefix)
      by (intros c p Hc Hp; apply Hothers;
          [apply in_or_app; left; exact Hc|exact Hp]).
    cbn [bind for_each]. unfold match_child at 1.
    rewrite Hprefix. cbn [bind py_iter].
    rewrite (@match_prefix_some node (JStr child) second prefixes Hmatch),
      Hdata.
    cbn [bind].
    rewrite Hexecs. cbn [py_get_key]. rewrite py_get_dict.
    cbn [bind setitem].
    apply (@match_children_none node map_info second prefixes after _
             Hprefix).
    intros c p Hc Hp. apply Hothers;
      [apply in_or_app; right; exact Hc|exact Hp].
Qed.

End TaskFacts.


Lemma read_task_in_map_witness :
  @read_task Script.python _ Script.engine ScriptMore.backend 1 "loop/zzz" []
    = (Ok (JDict [("id", JInt 1); ("task", Script.task_of_type "Map")]),
       ["load_node"])
  /\ @read_task Script.python _ Script.engine ScriptMore.backend 1
       "loop/b_mul" []
     = (Ok (JDict [("id", JInt 1);
                   ("task",
                    JDict [("metadata",
                            JDict [("node_type", JStr "Normal")]);
                           ("name", JStr "b_mul");
                           ("executor", JDict [])])]),
        ["load_node"]).
Proof.
  split.
  - apply (proj1 (@read_task_in_map Script.python _ Script.engine
                    ScriptMore.backend 1 "loop/zzz" "loop" "zzz" [] []
                    ["load_node"] Script.node1
                    (JDict [("sub", JStr "yaml:sub");
                            ("loop", JStr "yaml:loop");
                            ("add", JStr "yaml:add");
                            ("mul", JStr "yaml:mul")])
                    (JStr "yaml:loop") (Script.task_of_type "Map")
                    (JDict [("children", JList [JStr "add"; JStr "mul"]);
                            ("prefix", JList [JStr "a"; JStr "b"]);
                            ("links", JList [Script.link "add" "mul";
                                             Script.link "add" "collect"])])
                    [("sub", JDict [("graph_data", Script.sub_graph)])]
                    [JStr "add"; JStr "mul"] [JStr "a"; JStr "b"]
                    eq_refl eq_refl eq_refl eq_refl eq_refl eq_refl eq_refl
                    eq_refl eq_refl eq_refl)).
    intros child prefix [<-|[<-|[]]] [<-|[<-|[]]]; discriminate.
  - apply (proj2 (@read_task_in_map Script.python _ Script.engine
                    ScriptMore.backend 1 "loop/b_mul" "loop" "b_mul" [] []
                    ["load_node"] Script.node1
                    (JDict [("sub", JStr "yaml:sub");
                            ("loop", JStr "yaml:loop");
                            ("add", JStr "yaml:add");
                            ("mul", JStr "yaml:mul")])
                    (JStr "yaml:loop") (Script.task_of_type "Map")
                    (JDict [("children", JList [JStr "add"; JStr "mul"]);
                            ("prefix", JList [JStr "a"; JStr "b"]);
                            ("links", JList [Script.link "add" "mul";
                                             Script.link "add" "collect"])])
                    [("sub", JDict [("graph_data", Script.sub_graph)])]
                    [JStr "add"; JStr "mul"] [JStr "a"; JStr "b"]
                    eq_refl eq_refl eq_refl eq_refl eq_refl eq_refl eq_refl
                    eq_refl eq_refl eq_refl)
             [JStr "add"] [] "mul"
             [("metadata", JDict [("node_type", JStr "Normal")])]).
    + reflexivity.
    + intros other prefix [<-|[]] [<-|[<-|[]]]; discriminate.
    + exists (JStr "b"). split; [right; left; reflexivity|reflexivity].
    + reflexivity.
Defined.

(** ** Updating a workgraph node, reading a data node *)

Lemma dict_keys_set_new (d : list (string * json)) (k : string) (v : json) :
  ~ In k (dict_keys d) -> dict_keys (dict_set d k v) = (dict_keys d ++ [k])%list.
Proof.
  unfold dict_keys. induction d as [|[k' v'] d IH]; simpl; intros Hnew;
    [reflexivity|].
  destruct (String.eqb k' k) eqn:E.
  - apply String.eqb_eq in E. subst k'. exfalso. apply Hnew. left.
    reflexivity.
  - simpl. rewrite IH; [reflexivity|]. intros Hin. apply Hnew. right.
    exact Hin.
Qed.

Lemma dict_keys_fold_new (fields init : list (string * json)) :
  NoDup (dict_keys init ++ dict_keys fields) ->
  dict_keys (fold_left (fun d kv => dict_set d (fst kv) (snd kv)) fields init)
    = (dict_keys init ++ dict_keys fields)%list
  /\ forall k, In k (dict_keys init) ->
       dict_get (fold_left (fun d kv => dict_set d (fst kv) (snd kv))
                   fields init) k
       = dict_get init k.
Proof.
  revert init. induction fields as [|[k v] fields IH]; intros init Hnd.
  - cbn [fold_left dict_keys map]. rewrite app_nil_r. split; reflexivity.
  - cbn [fold_left fst snd].
    assert (Hnew : ~ In k (dict_keys init)).
    { intros Hin. apply NoDup_remove_2 in Hnd. apply Hnd.
      apply in_or_app. left. exact Hin. }
    assert (Hnd' : NoDup (dict_keys (dict_set init k v) ++ dict_keys fields)).
    { rewrite (@dict_keys_set_new init k v Hnew), <- app_assoc. exact Hnd. }
    destruct (IH (dict_set init k v) Hnd') as [Hkeys Hget]. split.
    + rewrite Hkeys, (@dict_keys_set_new init k v Hnew), <- app_assoc.
      reflexivity.
    + intros k' Hin. rewrite Hget.
      * apply dict_get_set_other. intros ->. contradiction.
      * apply dict_keys_set. right. exact Hin.
Qed.

Section UpdateFacts.
Context {py : Python} {world : Type} {eng : Engine world}
  {back : Backend world}.

Lemma update_fields_filter (node : WorkGraphNode)
    (payload : list (string * string)) (changed : bool) (w : world) :
  for_each_M payload (update_field node) changed w
    = for_each_M (filter (fun item => allowed (fst item)) payload)
        (update_field node) changed w.
Proof.
  revert changed w. induction payload as [|item payload IH];
    intros changed w; [reflexivity|].
  cbn [filter for_each_M].
  destruct (allowed (fst item)) eqn:Hallowed.
  - cbn [for_each_M]. unfold mbind.
    destruct (update_field node changed item w) as [[changed'|e] w'];
      [apply IH|reflexivity].
  - unfold mbind, update_field at 1. rewrite Hallowed. cbn [negb ret].
    apply IH.
Qed.

Lemma update_fields_none (node : WorkGraphNode)
    (payload : list (string * string)) (changed : bool) (w : world) :
  (forall item, In item payload -> allowed (fst item) = false) ->
  for_each_M payload (update_field node) changed w = (Ok changed, w).
Proof.
  intros Hnone. rewrite update_fields_filter.
  replace (filter (fun item => allowed (fst item)) payload) with
    (@nil (string * string)); [reflexivity|].
  symmetry. induction payload as [|item payload IH]; [reflexivity|].
  cbn [filter]. rewrite (Hnone item (or_introl eq_refl)).
  apply IH. intros i Hi. apply Hnone. right. exact Hi.
Qed.

Lemma comprehension_M_keys {A : Type} (f : string -> M world (string * A))
    (keys : list string) (fields : list (string * A)) (w w' : world) :
  (forall k w0 p w1, f k w0 = (Ok p, w1) -> fst p = k) ->
  comprehension_M f keys w = (Ok fields, w') ->
  map fst fields = keys.
Proof.
  intros Hfst. revert fields w w'. induction keys as [|k keys IH];
    intros fields w w'.
  - cbn [comprehension_M ret]. intros H. injection H as <- _. reflexivity.
  - cbn [comprehension_M]. unfold mbind.
    destruct (f k w) as [[p|e] w1] eqn:Hp; [|discriminate].
    destruct (comprehension_M f keys w1) as [[rest|e] w2] eqn:Hrest;
      [|discriminate].
    cbn [ret]. intros H. injection H as <- _.
    cbn [map]. rewrite (Hfst _ _ _ _ Hp), (IH _ _ _ Hrest). reflexivity.
Qed.

Lemma read_back_keys (node : WorkGraphNode) (keys : list string)
    (fields : list (string * json)) (w w' : world) :
  comprehension_M
    (fun k => mbind (node_getattr node k) (fun v => ret (k, v))) keys w
    = (Ok fields, w') ->
  dict_keys fields = keys.
Proof.
  apply comprehension_M_keys.
  intros k w0 p w1. unfold mbind, ret.
  destruct (node_getattr node k w0) as [[v|e] w2]; [|discriminate].
  intros H. injection H as <- _. reflexivity.
Qed.

Lemma mbind_run {A B : Type} (m : M world A) (k : A -> M world B)
    (w : world) :
  mbind m k w
    = match m w with
      | (Ok a, w') => k a w'
      | (Raise e, w') => (Raise e, w')
      end.
Proof. reflexivity. Qed.

Lemma update_workgraph_node_run (id : Z) (payload : list (string * string))
    (w : world) :
  update_workgraph_node id payload w
    = match load_node id w with
      | (Raise _, w1) =>
          (Raise (HTTPException 404
                    ("WorkGraph " ++ string_of_Z id ++ " not found")), w1)
      | (Ok node, w1) =>
          match for_each_M payload (update_field node) false w1 with
          | (Raise e, w2) => (Raise e, w2)
          | (Ok false, w2) =>
              (Raise (HTTPException 400 "No updatable fields provided"), w2)
          | (Ok true, w2) =>
              match comprehension_M
                      (fun k => mbind (node_getattr node k)
                                  (fun v => ret (k, v)))
                      allowed_order w2 with
              | (Raise e, w3) => (Raise e, w3)
              | (Ok fields, w3) =>
                  (Ok (JDict
                         (fold_left
                            (fun d kv => dict_set d (fst kv) (snd kv))
                            fields
                            [("updated", JBool true); ("pk", JInt id)])),
                   w3)
              end
          end
      end.
Proof.
  unfold update_workgraph_node. rewrite mbind_run.
  unfold try_except_Exception.
  destruct (load_node id w) as [[node|e] w1]; [|reflexivity].
  rewrite mbind_run.
  destruct (for_each_M payload (update_field node) false w1)
    as [[[|]|e] w2]; reflexivity.
Qed.

(** X13. PUT /api/workgraph-data/{id}: any exception of [load_node]
    becomes HTTP 404; keys of the payload other than label and description
    are never written and have no effect on the outcome; a payload without
    label and description is refused with HTTP 400 before anything is
    written; and an answer, when there is one, has exactly the keys
    updated, pk, label and description, with [updated] true and [pk] the
    id. *)
Theorem update_workgraph_node_fields (id : Z)
    (payload : list (string * string)) (w : world) :
  (forall e w1,
     load_node id w = (Raise e, w1) ->
     update_workgraph_node id payload w
       = (Raise (HTTPException 404
                   ("WorkGraph " ++ string_of_Z id ++ " not found")), w1))
  /\ update_workgraph_node id payload w
     = update_workgraph_node id
         (filter (fun item => allowed (fst item)) payload) w
  /\ (forall node w1,
        load_node id w = (Ok node, w1) ->
        (forall item, In item payload -> allowed (fst item) = false) ->
        update_workgraph_node id payload w
          = (Raise (HTTPException 400 "No updatable fields provided"), w1))
  /\ (forall answer w',
        update_workgraph_node id payload w = (Ok answer, w') ->
        exists d : list (string * json),
          answer = JDict d
          /\ Permutation (dict_keys d)
               ["updated"; "pk"; "label"; "description"]
          /\ dict_get d "updated" = Some (JBool true)
          /\ dict_get d "pk" = Some (JInt id)).
Proof.
  rewrite !update_workgraph_node_run.
  split; [|split; [|split]].
  - intros e w1 Hload. rewrite Hload. reflexivity.
  - destruct (load_node id w) as [[node|e] w1]; [|reflexivity].
    rewrite update_fields_filter. reflexivity.
  - intros node w1 Hload Hnone. rewrite Hload.
    rewrite (@update_fields_none node payload false w1 Hnone). reflexivity.
  - intros answer w'.
    destruct (load_node id w) as [[node|e] w1]; [|discriminate].
    destruct (for_each_M payload (update_field node) false w1)
      as [[[|]|e] w2]; try discriminate.
    destruct (comprehension_M
                (fun k => mbind (node_getattr node k) (fun v => ret (k, v)))
                allowed_order w2) as [[fields|e] w3] eqn:Hfields;
      [|discriminate].
    intros H. injection H as <- <-.
    pose proof (read_back_keys _ _ _ Hfields) as Hkeys.
    pose proof allowed_order_permutation as Hperm.
    assert (Hnd : NoDup (dict_keys [("updated", JBool true); ("pk", JInt id)]
                         ++ dict_keys fields)).
    { rewrite Hkeys. cbn [dict_keys map fst app].
      apply (Permutation_NoDup
               (l := ["updated"; "pk"; "label"; "description"])).
      - apply perm_skip, perm_skip, Permutation_sym, Hperm.
      - repeat constructor; simpl; intuition discriminate. }
    destruct (dict_keys_fold_new fields _ Hnd) as [Hall Hget].
    eexists. split; [reflexivity|]. split; [|split].
    + rewrite Hall, Hkeys. cbn [dict_keys map fst app].
      apply perm_skip, perm_skip, Hperm.
    + rewrite Hget; [reflexivity|left; reflexivity].
    + rewrite Hget; [reflexivity|right; left; reflexivity].
Qed.

(** X14. GET /api/datanode/{id}: the answer is the node's attributes with
    ["node_type"] set to the node type of the node, whatever the attributes
    held under that key, every other attribute unchanged; a [KeyError] of
    [load_node] becomes HTTP 404, any other exception of [load_node]
    leaves the handler as it is. *)
Theorem read_data_node_item_outcome (id : Z) (w : world) :
  (forall node d w1,
     load_data_node id w = (Ok node, w1) ->
     attributes node = JDict d ->
     exists answer : list (string * json),
       read_data_node_item id w = (Ok (JDict answer), w1)
       /\ dict_get answer "node_type" = Some (node_type node)
       /\ forall k, k <> "node_type" -> dict_get answer k = dict_get d k)
  /\ (forall shown w1,
        load_data_node id w = (Raise (KeyError shown), w1) ->
        read_data_node_item id w
          = (Raise (HTTPException 404
                      ("Data node " ++ string_of_Z id ++ " not found")),
             w1))
  /\ (forall e w1,
        load_data_node id w = (Raise e, w1) ->
        (forall shown, e <> KeyError shown) ->
        read_data_node_item id w = (Raise e, w1)).
Proof.
  unfold read_data_node_item, try_except_KeyError, read_data_node_item_try,
    mbind, lift, raise.
  split; [|split].
  - intros node d w1 Hload Hattrs. rewrite Hload, Hattrs. cbn [setitem].
    eexists. split; [reflexivity|]. split.
    + apply dict_get_set_same.
    + intros k Hne. apply dict_get_set_other. congruence.
  - intros shown w1 Hload. rewrite Hload. reflexivity.
  - intros e w1 Hload Hother. rewrite Hload.
    destruct e; try reflexivity. exfalso. eapply Hother. reflexivity.
Qed.

End UpdateFacts.

Lemma update_workgraph_node_fields_witness :
  @update_workgraph_node _ Script.engine ScriptMore.backend 2
      [("label", "x")] []
    = (Raise (HTTPException 404 "WorkGraph 2 not found"), ["load_node"])
  /\ @update_workgraph_node _ Script.engine ScriptMore.backend 1
       [("user", "me"); ("pk", "7")] []
     = (Raise (HTTPException 400 "No updatable fields provided"),
        ["load_node"])
  /\ exists d : list (string * json),
       JDict [("updated", JBool true); ("pk", JInt 1);
              ("description", JStr "new description");
              ("label", JStr "new label")] = JDict d
       /\ Permutation (dict_keys d)
            ["updated"; "pk"; "label"; "description"]
       /\ dict_get d "updated" = Some (JBool true)
       /\ dict_get d "pk" = Some (JInt 1).
Proof.
  split; [|split].
  - apply (proj1 (@update_workgraph_node_fields _
                    Script.engine ScriptMore.backend 2 [("label", "x")] [])
             (PyError "NotExistent" "no node found") ["load_node"]).
    reflexivity.
  - apply (proj1 (proj2 (proj2
             (@update_workgraph_node_fields _ Script.engine
                ScriptMore.backend 1 [("user", "me"); ("pk", "7")] [])))
             Script.node1 ["load_node"]).
    + reflexivity.
    + intros item [<-|[<-|[]]]; reflexivity.
  - apply (proj2 (proj2 (proj2
             (@update_workgraph_node_fields _ Script.engine
                ScriptMore.backend 1 [("label", "x"); ("user", "me")] [])))
             (JDict [("updated", JBool true); ("pk", JInt 1);
                     ("description", JStr "new description");
                     ("label", JStr "new label")])
             ["load_node"; "setattr label x"; "getattr description";
              "getattr label"]).
    reflexivity.
Defined.

Lemma read_data_node_item_outcome_witness :
  (exists answer : list (string * json),
     @read_data_node_item _ ScriptMore.backend 5 []
       = (Ok (JDict answer), ["load_node"])
     /\ dict_get answer "node_type" = Some (JStr "data.core.int.Int.")
     /\ forall k, k <> "node_type" ->
          dict_get answer k
          = dict_get [("value", JInt 3); ("node_type", JStr "stale")] k)
  /\ @read_data_node_item _ ScriptMore.backend 6 []
     = (Raise (PyError "NotExistent" "no node found"), ["load_node"]).
Proof.
  split.
  - apply (proj1 (@read_data_node_item_outcome _ ScriptMore.backend 5 [])
             ScriptMore.node5
             [("value", JInt 3); ("node_type", JStr "stale")]
             ["load_node"]); reflexivity.
  - apply (proj2 (proj2 (@read_data_node_item_outcome _ ScriptMore.backend
                           6 []))
             (PyError "NotExistent" "no node found") ["load_node"]).
    + reflexivity.
    + discriminate.
Defined.

(** ** What the client receives *)

Section AnswerFacts.
Variable build_dir : string.
Variable request : Type.
Variable http_exception_handler : request -> Z -> string -> response.
Variable request_validation_exception_handler :
  request -> list string -> response.
Context {py : Python} {world : Type} {eng : Engine world}
  {back : Backend world}.

Let answer : request -> result json -> response :=
  respond build_dir http_exception_handler
    request_validation_exception_handler.





End AnswerFacts.

(** ** The HTTP errors of the data-node list *)

Ltac crack_string_then tac :=
  lazymatch goal with
  | |- context [match ?s with EmptyString => _ | String _ _ => _ end] =>
      is_var s;
      destruct s as [|[[] [] [] [] [] [] [] []] ?]; cbv beta iota;
      try tac; try crack_string_then tac
  | _ => idtac
  end.

Lemma no_http_bind {A B : Type} (m : result A) (k : A -> result B) :
  no_http m -> (forall a, no_http (k a)) -> no_http (bind m k).
Proof.
  intros Hm Hk. destruct m as [a|e]; [apply Hk|exact Hm].
Qed.

Lemma no_http_for_each {A B : Type} (body : B -> A -> result B)
    (xs : list A) (acc : B) :
  (forall acc x, no_http (body acc x)) -> no_http (for_each xs body acc).
Proof.
  intros Hbody. revert acc. induction xs as [|x xs IH]; intros acc;
    [exact I|].
  cbn [for_each]. apply no_http_bind; [apply Hbody|exact IH].
Qed.

Lemma no_http_comprehension {A B : Type} (f : A -> result B) (xs : list A) :
  (forall x, no_http (f x)) -> no_http (comprehension f xs).
Proof.
  intros Hf. induction xs as [|x xs IH]; [exact I|].
  cbn [comprehension]. apply no_http_bind; [apply Hf|].
  intros y. apply no_http_bind; [exact IH|]. intros ys. exact I.
Qed.

Section HttpErrors.
Context {py : Python} {db : Storage} {utils : Utils}.

Lemma no_http_py_get (v : json) (k : string) (dflt : json) :
  no_http (py_get v k dflt).
Proof.
  destruct v as [| | | | | |d]; try exact I.
  cbn [py_get]. destruct (dict_get d k); exact I.
Qed.

Lemma no_http_py_iter (v : json) : no_http (py_iter v).
Proof. destruct v; exact I. Qed.

Lemma no_http_py_int (v : json) : no_http (py_int v).
Proof.
  destruct v as [| | |[| |]|s| |]; try exact I.
  cbn [py_int]. destruct (int_of_str s); exact I.
Qed.

Lemma no_http_in_str_dict (k : json) (d : list (string * string)) :
  no_http (in_str_dict k d).
Proof. destruct k; exact I. Qed.

Lemma no_http_str_dict_subscript (d : list (string * string)) (k : json) :
  no_http (str_dict_subscript d k).
Proof.
  destruct k as [| | | |s| |]; try exact I.
  cbn [str_dict_subscript]. destruct (str_dict_get d s); exact I.
Qed.

Lemma no_http_translate_item (filters : list (string * json)) (item : json) :
  no_http (translate_item filters item).
Proof.
  unfold translate_item.
  apply no_http_bind; [apply no_http_py_get|intros field].
  apply no_http_bind; [apply no_http_py_get|intros value].
  apply no_http_bind; [apply no_http_py_get|intros operator].
  destruct (negb (truthy value)); [exact I|].
  apply no_http_bind; [apply no_http_in_str_dict|intros known].
  destruct (negb known); [exact I|].
  apply no_http_bind; [apply no_http_str_dict_subscript|intros col].
  destruct (String.eqb col "id").
  - pose proof (no_http_py_int value) as Hint.
    destruct (py_int value) as [n|[| | |cls msg]]; try exact I;
      try contradiction.
    crack_string_then ltac:(exact I).
  - destruct (existsb (py_eq operator)
                [JStr "contains"; JStr "equals"; JStr "is"]); exact I.
Qed.

Lemma no_http_quick_filter_block (blocks : list json) (value : json) :
  no_http (quick_filter_block blocks value).
Proof.
  unfold quick_filter_block.
  apply no_http_bind; [destruct value; exact I|intros is_digit].
  apply no_http_bind; [|intros by_id; exact I].
  destruct is_digit; [|exact I].
  apply no_http_bind; [apply no_http_py_int|intros n; exact I].
Qed.

Lemma datanode_filters_http (fm : option string) (code : Z)
    (detail : string) :
  datanode_filters fm = Raise (HTTPException code detail) ->
  code = 400 /\ detail = "Invalid filterModel JSON"
  /\ exists text, fm = Some text /\ text <> "" /\ json_loads text = None.
Proof.
  unfold datanode_filters.
  destruct fm as [text|]; [|discriminate].
  destruct (String.eqb text "") eqn:Hempty; [discriminate|].
  apply String.eqb_neq in Hempty.
  destruct (json_loads text) as [decoded|] eqn:Hloads.
  - intros Hraise. exfalso.
    assert (Hplain : no_http
              (bind (py_get decoded "items" (JList [])) (fun items =>
               bind (py_iter items) (fun items =>
               bind (for_each items translate_item []) (fun filters =>
               bind (py_get decoded "quickFilterValues" (JList []))
                 (fun qf_values =>
               if truthy qf_values then
                 bind (py_iter qf_values) (fun values =>
                 bind (for_each values quick_filter_block [])
                   (fun or_blocks_per_value =>
                 if truthy (JDict filters) then
                   Ok (JDict [("and",
                               JList (JDict filters :: or_blocks_per_value))])
                 else Ok (JDict [("and", JList or_blocks_per_value)])))
               else Ok (JDict filters))))))).
    { apply no_http_bind; [apply no_http_py_get|intros items].
      apply no_http_bind; [apply no_http_py_iter|intros item_list].
      apply no_http_bind;
        [apply no_http_for_each, no_http_translate_item|intros filters].
      apply no_http_bind; [apply no_http_py_get|intros qf].
      destruct (truthy qf); [|exact I].
      apply no_http_bind; [apply no_http_py_iter|intros values].
      apply no_http_bind;
        [apply no_http_for_each, no_http_quick_filter_block|intros blocks].
      destruct (truthy (JDict filters)); exact I. }
    rewrite Hraise in Hplain. exact Hplain.
  - intros H. injection H as <- <-.
    split; [reflexivity|]. split; [reflexivity|].
    exists text. repeat split; assumption.
Qed.

Lemma no_http_datanode_row (row : list json) : no_http (datanode_row row).
Proof.
  unfold datanode_row.
  do 6 (destruct row as [|? row]; try exact I).
  destruct row; exact I.
Qed.

(** X17. GET /api/datanode-data: the only [HTTPException] the route can
    end in is the HTTP 400 "Invalid filterModel JSON", and it does so only
    for a filter model that is a non-empty string [json.loads] rejects; in
    particular the route never raises HTTP 404. *)
Theorem datanode_list_http_error (q : ListQuery) (code : Z)
    (detail : string) :
  get_datanode_data q = Raise (HTTPException code detail) ->
  code = 400 /\ detail = "Invalid filterModel JSON"
  /\ exists text,
       q_filterModel q = Some text /\ text <> "" /\ json_loads text = None.
Proof.
  unfold get_datanode_data.
  destruct (validate datanode_sort_fields q) as [p|e] eqn:Hvalid.
  - cbn [bind].
    destruct (validate_accepts _ _ Hvalid) as [Hp _].
    assert (Hfm : filterModel p = q_filterModel q) by (rewrite Hp; reflexivity).
    unfold read_datanode_data.
    destruct (datanode_filters (filterModel p)) as [filters|e] eqn:Hfilters.
    + cbn [bind]. intros Hraise. exfalso.
      match type of Hraise with
      | ?body = _ => assert (Hplain : no_http body)
      end.
      { apply no_http_bind; [apply no_http_str_dict_subscript|intros col].
        apply no_http_bind;
          [apply no_http_comprehension, no_http_datanode_row|].
        intros page. exact I. }
      rewrite Hraise in Hplain. exact Hplain.
    + cbn [bind]. intros H. injection H as ->.
      rewrite <- Hfm. apply datanode_filters_http. exact Hfilters.
  - cbn [bind]. intros H. injection H as ->. exfalso.
    unfold validate in Hvalid.
    destruct (_ ++ _)%list in Hvalid; discriminate.
Qed.

End HttpErrors.

Lemma datanode_list_http_error_witness :
  400 = 400 /\ "Invalid filterModel JSON" = "Invalid filterModel JSON"
  /\ exists text,
       Some "{" = Some text /\ text <> ""
       /\ @json_loads Script.python text = None.
Proof.
  apply (@datanode_list_http_error Script.python Script.storage Script.utils
           (mkQuery None None None None (Some "{")) 400
           "Invalid filterModel JSON").
  reflexivity.
Defined.

(** ** The columns a list can be ordered by *)

(** X18. The column given to [order_by]: for an accepted query of the
    data-node list it is one of id, ctime, node_type, label, description;
    for the workgraph list it is one of id, ctime, attributes.process_label,
    attributes.process_state, label, description.  The entries of the
    workgraph column map for status, exit_status and exit_message are never
    used: validation rejects these sort fields. *)
Theorem sortable_columns (q : ListQuery) (p : ListParams) :
  (validate datanode_sort_fields q = Ok p ->
   exists col,
     str_dict_get datanode_col_map (sortField p) = Some col
     /\ In col ["id"; "ctime"; "node_type"; "label"; "description"])
  /\ (validate workgraph_sort_fields q = Ok p ->
      exists col,
        str_dict_get workgraph_col_map (sortField p) = Some col
        /\ In col ["id"; "ctime"; "attributes.process_label";
                   "attributes.process_state"; "label"; "description"]
        /\ ~ In col ["attributes.process_status"; "attributes.exit_status";
                     "attributes.exit_message"]).
Proof.
  split; intros Hvalid;
    destruct (validate_accepts _ _ Hvalid) as [_ [_ [_ [Hfield _]]]];
    simpl in Hfield;
    repeat (destruct Hfield as [<-|Hfield];
            [eexists; split; [reflexivity|];
             try (split; [simpl; tauto|
                          simpl; intuition discriminate]);
             simpl; tauto|]);
    contradiction.
Qed.

Lemma sortable_columns_witness :
  exists col,
    str_dict_get workgraph_col_map "state" = Some col
    /\ In col ["id"; "ctime"; "attributes.process_label";
               "attributes.process_state"; "label"; "description"]
    /\ ~ In col ["attributes.process_status"; "attributes.exit_status";
                 "attributes.exit_message"].
Proof.
  apply (proj2 (sortable_columns
                  (mkQuery None None (Some "state") None None)
                  (mkParams 0 15 "state" "desc" None))).
  reflexivity.
Defined.

(** ** The quick filter *)

Section QuickFilter.
Context {py : Python}.

(** X19. GET /api/datanode-data with a filter model that is an object
    whose [quickFilterValues] is a non-empty list: when the translation
    succeeds, the filters are an "and" over exactly one "or"-block per
    quick-filter value, in their order, preceded by the dict of the item
    filters when, and only when, that dict is not empty. *)
Theorem quick_filter_blocks (text : string) (d : list (string * json))
    (items values : list json) (filters : list (string * json)) (f : json) :
  text <> "" ->
  json_loads text = Some (JDict d) ->
  item_get d "items" (JList []) = JList items ->
  for_each items translate_item [] = Ok filters ->
  item_get d "quickFilterValues" (JList []) = JList values ->
  values <> [] ->
  datanode_filters (Some text) = Ok f ->
  exists blocks : list json,
    for_each values quick_filter_block [] = Ok blocks
    /\ List.length blocks = List.length values
    /\ forallb quick_block blocks = true
    /\ f = JDict [("and",
                   JList (match filters with
                          | [] => blocks
                          | _ => JDict filters :: blocks
                          end))].
Proof.
  intros Hne Hloads Hitems Hrun Hquick Hvalues.
  unfold datanode_filters.
  apply String.eqb_neq in Hne. rewrite Hne, Hloads.
  rewrite !py_get_dict. cbn [bind]. rewrite Hitems. cbn [py_iter bind].
  rewrite Hrun. cbn [bind]. rewrite Hquick.
  destruct values as [|value values]; [contradiction|].
  cbn [truthy py_iter bind].
  destruct (for_each (value :: values) quick_filter_block [])
    as [blocks|] eqn:Hblocks; [|discriminate].
  cbn [bind].
  destruct (quick_filter_blocks_shape (value :: values) [] eq_refl Hblocks)
    as [Hshape Hlen].
  intros Hf. exists blocks. split; [reflexivity|].
  split; [exact Hlen|]. split; [exact Hshape|].
  destruct filters as [|entry filters]; cbn [truthy] in Hf;
    injection Hf as <-; reflexivity.
Qed.

End QuickFilter.

Lemma quick_filter_blocks_witness :
  exists (f : json) (blocks : list json),
    @datanode_filters ScriptMore.python (Some "label-and-quick") = Ok f
    /\ List.length blocks = 2%nat
    /\ forallb quick_block blocks = true
    /\ f = JDict [("and",
                   JList (JDict [("label", JDict [("like", JStr "%relax%")])]
                          :: blocks))].
Proof.
  let r := eval vm_compute in
    (@datanode_filters ScriptMore.python (Some "label-and-quick")) in
  match r with
  | Ok ?f =>
      destruct (@quick_filter_blocks ScriptMore.python "label-and-quick"
                  ScriptMore.quick_model
                  [JDict [("field", JStr "label"); ("value", JStr "relax")]]
                  [JStr "12"; JStr "int"]
                  [("label", JDict [("like", JStr "%relax%")])] f)
        as [blocks [_ [Hlen [Hshape Hf]]]];
        try reflexivity; try discriminate;
        exists f, blocks; repeat split; assumption || reflexivity
  end.
Defined.
